(** * Billing invoice automation: provisioning and URL generation

    A shallow embedding of the TypeScript sources [config.ts], [types.ts],
    [setup.ts], [generate-url.ts] and, of [cli.ts], the [setup] command, and
    the properties of the specification that are settled on it.

    Conventions of the embedding.
    - A JavaScript string is a sequence of code units; it is modelled by
      [string], a character standing for the code unit of the same number.
    - A plain object used as a dictionary ([Record<string, string>], the
      [mcpServers] table) is a [gmap string _]; the enumeration order of its
      properties is not modelled.
    - An [async] function is modelled by the sequence of its effects: what it
      asks of the Composio SDK, in order, and how it completes (a value, or
      the value it throws, that is the rejection of its promise). *)

From Stdlib Require Import String Ascii List Bool NArith DecimalString.
From stdpp Require Import base option list strings gmap.

Open Scope string_scope.

Set Warnings "-register-all".

(** ** JavaScript primitives the sources rely on *)

Module Js.

(** White space and line terminators of [String.prototype.trim], among the
    code units below 256: TAB, LF, VT, FF, CR, SP and NBSP. *)
Definition is_whitespace (c : ascii) : bool :=
  let n := nat_of_ascii c in
  (n =? 9)%nat || (n =? 10)%nat || (n =? 11)%nat || (n =? 12)%nat
  || (n =? 13)%nat || (n =? 32)%nat || (n =? 160)%nat.

Fixpoint trimStart (s : string) : string :=
  match s with
  | EmptyString => EmptyString
  | String c s' => if is_whitespace c then trimStart s' else s
  end.

Fixpoint trimEnd (s : string) : string :=
  match s with
  | EmptyString => EmptyString
  | String c s' =>
      let t := trimEnd s' in
      if is_whitespace c && String.eqb t "" then "" else String c t
  end.

(** [s.trim()] *)
Definition trim (s : string) : string := trimEnd (trimStart s).

(** [s.includes(sub)]: [sub] occurs in [s] as a contiguous run. *)
Fixpoint includes (s sub : string) : bool :=
  String.prefix sub s ||
  match s with
  | EmptyString => false
  | String _ s' => includes s' sub
  end.

(** Truthiness of a string: only the empty string is falsy. *)
Definition truthy (s : string) : bool := negb (String.eqb s "").

(** [a || b] where [a] is a string. *)
Definition or_else (a b : string) : string := if truthy a then a else b.

(** [a || b] where [a] is a string or [undefined]. *)
Definition or_else_opt (a : option string) (b : string) : string :=
  match a with
  | Some s => or_else s b
  | None => b
  end.

(** [!s || s.trim() === ''] for [s] a string. *)
Definition missing (s : string) : bool :=
  negb (truthy s) || String.eqb (trim s) "".

(** Every character of the string is white space (vacuously for [""]). *)
Fixpoint blank (s : string) : bool :=
  match s with
  | EmptyString => true
  | String c s' => is_whitespace c && blank s'
  end.

(** Values at run time, as far as the generated documents need them. *)
Inductive Value :=
| Str (s : string)
| Arr (xs : list Value)
| Obj (props : gmap string Value).

(** The run-time value of a typed datum; types are erased, an optional
    field that is not set is a property that is not there. *)
Class Repr (A : Type) := repr : A -> Value.

#[global] Instance repr_string : Repr string := Str.
#[global] Instance repr_list {A} `{Repr A} : Repr (list A) :=
  fun xs => Arr (map repr xs).
#[global] Instance repr_dict {A} `{Repr A} : Repr (gmap string A) :=
  fun m => Obj (repr <$> m).

(** Setting a property of an object literal: [{ ...o, k: v }]. *)
Definition prop {A} `{Repr A} (k : string) (v : A)
    (o : gmap string Value) : gmap string Value :=
  <[k := repr v]> o.

(** The same for a field the literal may leave out. *)
Definition prop_opt {A} `{Repr A} (k : string) (v : option A)
    (o : gmap string Value) : gmap string Value :=
  match v with
  | Some x => prop k x o
  | None => o
  end.

End Js.

(** ** [types.ts] *)

Module SetupConfig.
Record t := { composioApiKey : string; serverName : string }.
End SetupConfig.

Module SetupResult.
Record t := {
  serverId : string;
  serverName : string;
  toolkits : list string;
  allowedTools : list string
}.
End SetupResult.

Module ToolkitConfig.
Record t := { toolkit : string; authConfigId : option string }.
End ToolkitConfig.

Module MCPServerConfig.
Record t := {
  name : string;
  toolkits : list ToolkitConfig.t;
  allowedTools : list string
}.
End MCPServerConfig.

Module GenerateUrlConfig.
Record t := { composioApiKey : string; serverId : string; userId : string }.
End GenerateUrlConfig.

Module GeneratedUrl.
Record t := { url : string; headers : gmap string string }.
End GeneratedUrl.

(** An entry of [VSCodeMCPConfig.mcpServers]. *)
Module VSCodeServer.
Record t := { type : string; url : string; headers : gmap string string }.

#[global] Instance repr_VSCodeServer : Js.Repr t := fun d =>
  Js.Obj (Js.prop "type" (type d)
           (Js.prop "url" (url d)
             (Js.prop "headers" (headers d) ∅))).
End VSCodeServer.

Module VSCodeMCPConfig.
Record t := { mcpServers : gmap string VSCodeServer.t }.

#[global] Instance repr_VSCodeMCPConfig : Js.Repr t := fun c =>
  Js.Obj (Js.prop "mcpServers" (mcpServers c) ∅).
End VSCodeMCPConfig.

(** An entry of [ClaudeDesktopMCPConfig.mcpServers]: every field optional. *)
Module ClaudeDesktopServer.
Record t := {
  command : option string;
  args : option (list string);
  url : option string;
  type : option string;
  headers : option (gmap string string)
}.

#[global] Instance repr_ClaudeDesktopServer : Js.Repr t := fun d =>
  Js.Obj (Js.prop_opt "command" (command d)
           (Js.prop_opt "args" (args d)
             (Js.prop_opt "url" (url d)
               (Js.prop_opt "type" (type d)
                 (Js.prop_opt "headers" (headers d) ∅))))).
End ClaudeDesktopServer.

Module ClaudeDesktopMCPConfig.
Record t := { mcpServers : gmap string ClaudeDesktopServer.t }.

#[global] Instance repr_ClaudeDesktopMCPConfig : Js.Repr t := fun c =>
  Js.Obj (Js.prop "mcpServers" (mcpServers c) ∅).
End ClaudeDesktopMCPConfig.

Module IDEConfig.
Record t := {
  vscode : VSCodeMCPConfig.t;
  kiro : VSCodeMCPConfig.t;
  claudeDesktop : ClaudeDesktopMCPConfig.t
}.
End IDEConfig.

Module ComposioMCPServer.
Record t := {
  id : string;
  name : string;
  toolkits : list ToolkitConfig.t;
  allowedTools : list string;
  createdAt : string
}.
End ComposioMCPServer.

Module ComposioMCPInstance.
Record t := { url : string; allowedTools : list string }.
End ComposioMCPInstance.

(** ** [config.ts] *)

Module Config.

Definition BILLING_TOOLKITS : list ToolkitConfig.t :=
  [ {| ToolkitConfig.toolkit := "gmail"; ToolkitConfig.authConfigId := None |};
    {| ToolkitConfig.toolkit := "googlesheets"; ToolkitConfig.authConfigId := None |};
    {| ToolkitConfig.toolkit := "googledrive"; ToolkitConfig.authConfigId := None |};
    {| ToolkitConfig.toolkit := "outlook"; ToolkitConfig.authConfigId := None |};
    {| ToolkitConfig.toolkit := "xero"; ToolkitConfig.authConfigId := None |} ].

Definition BILLING_ALLOWED_TOOLS : list string :=
  [ "GMAIL_FETCH_EMAILS";
    "GMAIL_GET_ATTACHMENT";
    "GMAIL_SEND_EMAIL";
    "GOOGLESHEETS_BATCH_UPDATE";
    "GOOGLESHEETS_CREATE_GOOGLE_SHEET1";
    "GOOGLEDRIVE_DOWNLOAD_FILE";
    "GOOGLEDRIVE_UPLOAD_FILE";
    "OUTLOOK_SEARCH_MESSAGES";
    "OUTLOOK_GET_ATTACHMENT";
    "XERO_LIST_INVOICES";
    "XERO_CREATE_INVOICE" ].

Definition BILLING_MCP_CONFIG : MCPServerConfig.t :=
  {| MCPServerConfig.name := "billing-invoice-automation";
     MCPServerConfig.toolkits := BILLING_TOOLKITS;
     MCPServerConfig.allowedTools := BILLING_ALLOWED_TOOLS |}.

End Config.

(** ** The Composio SDK, as far as the sources use it

    The SDK is outside the repository.  It is a parameter of the operations:
    a constructor and the two methods of [composio.mcp] the sources call,
    each free to complete or to throw. *)

Module Sdk.

(** A value that can be thrown: an [Error] instance of the SDK or of the
    run time, a value that is not an [Error] instance, or one of the three
    error classes of the repository, with the [cause] it was given. *)
Inductive Thrown :=
| ForeignError (message : string)
| NonError (payload : string)
| ComposioApiKeyError (message : string)
| MCPServerError (message : string) (cause : option Thrown)
| UrlGenerationError (message : string) (cause : option Thrown).

(** [error instanceof Error] *)
Definition instanceofError (error : Thrown) : bool :=
  match error with
  | NonError _ => false
  | _ => true
  end.

(** [error.message] of an [Error] instance. *)
Definition message (error : Thrown) : string :=
  match error with
  | ForeignError m => m
  | NonError _ => ""
  | ComposioApiKeyError m => m
  | MCPServerError m _ => m
  | UrlGenerationError m _ => m
  end.

(** [error.name], as the constructors of the three classes set it. *)
Definition name (error : Thrown) : option string :=
  match error with
  | ForeignError _ => Some "Error"
  | NonError _ => None
  | ComposioApiKeyError _ => Some "ComposioApiKeyError"
  | MCPServerError _ _ => Some "MCPServerError"
  | UrlGenerationError _ _ => Some "UrlGenerationError"
  end.

(** The argument of [new Composio(...)]; the client keeps it. *)
Record ComposioOptions := { apiKey : string; disableVersionCheck : bool }.

Record McpCreateOptions := {
  toolkits : list string;
  allowedTools : list string;
  create_manuallyManageConnections : bool
}.

Record McpGenerateOptions := { generate_manuallyManageConnections : bool }.

(** What an operation asks of the SDK.  [McpCreate] and [McpGenerate] are
    the requests to the platform; [NewComposio] stays in the process. *)
Inductive Request :=
| NewComposio (options : ComposioOptions)
| McpCreate (client : ComposioOptions) (name : string)
    (options : McpCreateOptions)
| McpGenerate (client : ComposioOptions) (userId serverId : string)
    (options : McpGenerateOptions).

Definition is_network (r : Request) : bool :=
  match r with
  | NewComposio _ => false
  | McpCreate _ _ _ => true
  | McpGenerate _ _ _ _ => true
  end.

(** The behaviour of the SDK and of the platform behind it. *)
Record t := {
  construct : ComposioOptions -> option Thrown;
  mcp_create :
    ComposioOptions -> string -> McpCreateOptions ->
    Thrown + ComposioMCPServer.t;
  mcp_generate :
    ComposioOptions -> string -> string -> McpGenerateOptions ->
    Thrown + ComposioMCPInstance.t
}.

End Sdk.

(** ** Effects: requests made so far, and a completion *)

Module Eff.

Inductive Completion (A : Type) :=
| Return (a : A)
| Throw (error : Sdk.Thrown).
Arguments Return {A} a.
Arguments Throw {A} error.

Definition t (A : Type) : Type := Completion A * list Sdk.Request.

Definition ret {A} (a : A) : t A := (Return a, []).

Definition throw {A} (error : Sdk.Thrown) : t A := (Throw error, []).

Definition bind {A B} (m : t A) (k : A -> t B) : t B :=
  match m with
  | (Return a, reqs) => let (c, reqs') := k a in (c, (reqs ++ reqs')%list)
  | (Throw error, reqs) => (Throw error, reqs)
  end.

(** [try { m } catch (error) { handler }] *)
Definition try_catch {A} (m : t A) (handler : Sdk.Thrown -> t A) : t A :=
  match m with
  | (Return a, reqs) => (Return a, reqs)
  | (Throw error, reqs) =>
      let (c, reqs') := handler error in (c, (reqs ++ reqs')%list)
  end.

Definition completion {A} (m : t A) : Completion A := fst m.
Definition requests {A} (m : t A) : list Sdk.Request := snd m.

(** The requests that reach the platform. *)
Definition network_calls {A} (m : t A) : list Sdk.Request :=
  filter (fun r => Sdk.is_network r = true) (requests m).

(** [new Composio(options)] *)
Definition newComposio (sdk : Sdk.t) (options : Sdk.ComposioOptions)
    : t Sdk.ComposioOptions :=
  (match Sdk.construct sdk options with
   | None => Return options
   | Some error => Throw error
   end, [Sdk.NewComposio options]).

(** [await composio.mcp.create(name, options)] *)
Definition mcpCreate (sdk : Sdk.t) (composio : Sdk.ComposioOptions)
    (name : string) (options : Sdk.McpCreateOptions)
    : t ComposioMCPServer.t :=
  (match Sdk.mcp_create sdk composio name options with
   | inr server => Return server
   | inl error => Throw error
   end, [Sdk.McpCreate composio name options]).

(** [await composio.mcp.generate(userId, serverId, options)] *)
Definition mcpGenerate (sdk : Sdk.t) (composio : Sdk.ComposioOptions)
    (userId serverId : string) (options : Sdk.McpGenerateOptions)
    : t ComposioMCPInstance.t :=
  (match Sdk.mcp_generate sdk composio userId serverId options with
   | inr instance => Return instance
   | inl error => Throw error
   end, [Sdk.McpGenerate composio userId serverId options]).

End Eff.

Notation "'let*' x ':=' m 'in' k" := (Eff.bind m (fun x => k))
  (at level 10, x name, m at level 100, k at level 200, only parsing).

(** ** [setup.ts] *)

Module Setup.

Import Sdk.

(** The process environment, as far as it is read. *)
Record Env := { COMPOSIO_API_KEY : option string }.

Definition initializeComposioClient (sdk : Sdk.t) (env : Env)
    : Eff.t ComposioOptions :=
  let apiKey := COMPOSIO_API_KEY env in
  match apiKey with
  | None =>
      Eff.throw
        (ComposioApiKeyError
           ("COMPOSIO_API_KEY environment variable is required. " +:+
            "Please set it before running the setup command."))
  | Some key =>
      if negb (Js.truthy key) then
        Eff.throw
          (ComposioApiKeyError
             ("COMPOSIO_API_KEY environment variable is required. " +:+
              "Please set it before running the setup command."))
      else if String.eqb (Js.trim key) "" then
        Eff.throw
          (ComposioApiKeyError
             "COMPOSIO_API_KEY environment variable cannot be empty.")
      else
        Eff.try_catch
          (Eff.newComposio sdk
             {| apiKey := key; disableVersionCheck := true |})
          (fun error =>
             Eff.throw
               (ComposioApiKeyError
                  ("Failed to initialize Composio client: " +:+
                   (if instanceofError error then message error
                    else "Unknown error"))))
  end.

Definition getApiKey (env : Env) : Eff.t string :=
  let apiKey := COMPOSIO_API_KEY env in
  match apiKey with
  | Some key =>
      if Js.missing key
      then Eff.throw (ComposioApiKeyError
                        "COMPOSIO_API_KEY environment variable is required.")
      else Eff.ret key
  | None =>
      Eff.throw (ComposioApiKeyError
                   "COMPOSIO_API_KEY environment variable is required.")
  end.

Definition setup (sdk : Sdk.t) (config : SetupConfig.t)
    : Eff.t SetupResult.t :=
  let* composio :=
    Eff.newComposio sdk
      {| apiKey := SetupConfig.composioApiKey config;
         disableVersionCheck := true |} in
  let serverName :=
    Js.or_else (SetupConfig.serverName config)
      (MCPServerConfig.name Config.BILLING_MCP_CONFIG) in
  let toolkits := map ToolkitConfig.toolkit Config.BILLING_TOOLKITS in
  let allowedTools := Config.BILLING_ALLOWED_TOOLS in
  Eff.try_catch
    (let* mcpConfig :=
       Eff.mcpCreate sdk composio serverName
         {| Sdk.toolkits := toolkits;
            Sdk.allowedTools := allowedTools;
            create_manuallyManageConnections := false |} in
     Eff.ret
       {| SetupResult.serverId := ComposioMCPServer.id mcpConfig;
          SetupResult.serverName := ComposioMCPServer.name mcpConfig;
          SetupResult.toolkits := toolkits;
          SetupResult.allowedTools := allowedTools |})
    (fun error =>
       let errorMessage :=
         if instanceofError error then message error else "Unknown error" in
       if Js.includes errorMessage "already exists" then
         Eff.throw
           (MCPServerError
              ("MCP server with name '" +:+ serverName +:+
               "' already exists with different configuration. " +:+
               "Please use a different server name or delete the existing server.")
              (Some error))
       else if Js.includes errorMessage "Invalid"
               || Js.includes errorMessage "unauthorized"
               || Js.includes errorMessage "401" then
         Eff.throw (ComposioApiKeyError "Invalid Composio API key")
       else
         Eff.throw
           (MCPServerError
              ("Failed to create MCP server: " +:+ errorMessage)
              (Some error))).

(** [serverName] is an optional parameter: [None] is [undefined]. *)
Definition setupFromEnv (sdk : Sdk.t) (env : Env)
    (serverName : option string) : Eff.t SetupResult.t :=
  let* apiKey := getApiKey env in
  setup sdk
    {| SetupConfig.composioApiKey := apiKey;
       SetupConfig.serverName :=
         Js.or_else_opt serverName
           (MCPServerConfig.name Config.BILLING_MCP_CONFIG) |}.

End Setup.

(** ** [generate-url.ts] *)

Module GenerateUrl.

Import Sdk.

Definition generateUserUrl (sdk : Sdk.t) (config : GenerateUrlConfig.t)
    : Eff.t GeneratedUrl.t :=
  let composioApiKey := GenerateUrlConfig.composioApiKey config in
  let serverId := GenerateUrlConfig.serverId config in
  let userId := GenerateUrlConfig.userId config in
  if Js.missing composioApiKey then
    Eff.throw (UrlGenerationError "Composio API key is required" None)
  else if Js.missing serverId then
    Eff.throw (UrlGenerationError "Server ID is required" None)
  else if Js.missing userId then
    Eff.throw (UrlGenerationError "User ID is required" None)
  else
    let* composio :=
      Eff.newComposio sdk
        {| apiKey := composioApiKey; disableVersionCheck := true |} in
    Eff.try_catch
      (let* serverInstance :=
         Eff.mcpGenerate sdk composio userId serverId
           {| generate_manuallyManageConnections := false |} in
       Eff.ret
         {| GeneratedUrl.url := ComposioMCPInstance.url serverInstance;
            GeneratedUrl.headers := {[ "x-api-key" := composioApiKey ]} |})
      (fun error =>
         let errorMessage :=
           if instanceofError error then message error else "Unknown error" in
         Eff.throw
           (UrlGenerationError
              ("Failed to generate MCP URL: " +:+ errorMessage)
              (Some error))).

(** The default value of the parameter [serverLabel]; [None] is an argument
    left out (or [undefined]). *)
Definition serverLabel_or_default (serverLabel : option string) : string :=
  default "billing-agent" serverLabel.

(** [headers['x-api-key'] || 'YOUR_COMPOSIO_API_KEY'] *)
Definition apiKeyHeader (headers : gmap string string) : string :=
  Js.or_else_opt (headers !! "x-api-key") "YOUR_COMPOSIO_API_KEY".

Definition generateIDEConfigs (generatedUrl : GeneratedUrl.t)
    (serverLabel : option string) : IDEConfig.t :=
  let serverLabel := serverLabel_or_default serverLabel in
  let url := GeneratedUrl.url generatedUrl in
  let headers := GeneratedUrl.headers generatedUrl in
  let vscodeConfig : VSCodeMCPConfig.t :=
    {| VSCodeMCPConfig.mcpServers :=
         {[ serverLabel :=
              {| VSCodeServer.type := "http";
                 VSCodeServer.url := url;
                 VSCodeServer.headers :=
                   <[ "x-api-key" := apiKeyHeader headers ]> headers |} ]} |} in
  let kiroConfig : VSCodeMCPConfig.t :=
    {| VSCodeMCPConfig.mcpServers :=
         {[ serverLabel :=
              {| VSCodeServer.type := "http";
                 VSCodeServer.url := url;
                 VSCodeServer.headers :=
                   <[ "x-api-key" := apiKeyHeader headers ]> headers |} ]} |} in
  let claudeDesktopConfig : ClaudeDesktopMCPConfig.t :=
    {| ClaudeDesktopMCPConfig.mcpServers :=
         {[ serverLabel :=
              {| ClaudeDesktopServer.command := None;
                 ClaudeDesktopServer.args := None;
                 ClaudeDesktopServer.type := Some "http";
                 ClaudeDesktopServer.url := Some url;
                 ClaudeDesktopServer.headers :=
                   Some (<[ "x-api-key" := apiKeyHeader headers ]> headers)
              |} ]} |} in
  {| IDEConfig.vscode := vscodeConfig;
     IDEConfig.kiro := kiroConfig;
     IDEConfig.claudeDesktop := claudeDesktopConfig |}.

Definition generateVSCodeConfig (generatedUrl : GeneratedUrl.t)
    (serverLabel : option string) : VSCodeMCPConfig.t :=
  IDEConfig.vscode
    (generateIDEConfigs generatedUrl (Some (serverLabel_or_default serverLabel))).

Definition generateKiroConfig (generatedUrl : GeneratedUrl.t)
    (serverLabel : option string) : VSCodeMCPConfig.t :=
  IDEConfig.kiro
    (generateIDEConfigs generatedUrl (Some (serverLabel_or_default serverLabel))).

Definition generateClaudeDesktopConfig (generatedUrl : GeneratedUrl.t)
    (serverLabel : option string) : ClaudeDesktopMCPConfig.t :=
  IDEConfig.claudeDesktop
    (generateIDEConfigs generatedUrl (Some (serverLabel_or_default serverLabel))).

(** The parameter is typed ['vscode' | 'kiro' | 'claudeDesktop']; the
    [switch] itself compares any string and has a [default] branch. *)
Definition getIDEConfigPath (ide : string) : string :=
  if String.eqb ide "vscode" then ".vscode/mcp.json"
  else if String.eqb ide "kiro" then ".kiro/settings/mcp.json"
  else if String.eqb ide "claudeDesktop" then
    "~/Library/Application Support/Claude/claude_desktop_config.json"
  else "mcp.json".

Definition generateUrlWithConfigs (sdk : Sdk.t) (config : GenerateUrlConfig.t)
    (serverLabel : option string)
    : Eff.t (GeneratedUrl.t * IDEConfig.t) :=
  let serverLabel := serverLabel_or_default serverLabel in
  let* url := generateUserUrl sdk config in
  let ideConfigs := generateIDEConfigs url (Some serverLabel) in
  Eff.ret (url, ideConfigs).

End GenerateUrl.

(** ** [cli.ts]: the action of the [setup] command

    What the action writes is the list of the arguments of its calls of
    [console.log] and [console.error], in order.  The texts hold two glyphs
    that are no character of [string]; a text is therefore a list of code
    units, the strings of the model being read one code unit a character. *)

Module Cli.

Import Sdk.

Definition units (s : string) : list N :=
  map N_of_ascii (list_ascii_of_string s).

(** The line feed and the double quote of the string literals. *)
Definition LF : string := String (ascii_of_nat 10) "".
Definition DQUOTE : string := String (ascii_of_nat 34) "".

(** U+2705 and U+274C. *)
Definition CHECK_MARK : N := 9989.
Definition CROSS_MARK : N := 10060.

Inductive Output :=
| Log (text : list N)
| Error (text : list N).

(** A run of an action: what it wrote, what it asked of the SDK, and the
    argument of [process.exit] if it was called. *)
Record Run := {
  outputs : list Output;
  requests : list Request;
  exit : option nat
}.

(** [n] in a template literal, for a length. *)
Definition decimal (n : nat) : string :=
  DecimalString.NilEmpty.string_of_uint (Nat.to_uint n).

(** [options.name] is the value of [--name], which the command line parser
    defaults to 'billing-invoice-automation'. *)
Definition setupAction (sdk : Sdk.t) (env : Setup.Env) (options_name : string)
    : Run :=
  let started := Log (units ("Setting up billing MCP server..." +:+ LF)) in
  match Setup.setupFromEnv sdk env (Some options_name) with
  | (Eff.Return result, requests) =>
      {| outputs :=
           [ started;
             Log (CHECK_MARK :: units (" MCP server created successfully!" +:+ LF));
             Log (units ("Server ID: " +:+ SetupResult.serverId result));
             Log (units ("Server Name: " +:+ SetupResult.serverName result));
             Log (units (LF +:+ "Configured Toolkits: " +:+
                         String.concat ", " (SetupResult.toolkits result)));
             Log (units (LF +:+ "Allowed Tools (" +:+
                         decimal (length (SetupResult.allowedTools result)) +:+
                         "):")) ]
           ++ map (fun tool => Log (units ("  - " +:+ tool)))
                (SetupResult.allowedTools result)
           ++ [ Log (units (LF +:+ "Next step: Run " +:+ DQUOTE +:+
                            "billing-mcp generate <userId>" +:+ DQUOTE +:+
                            " to generate a URL for a user.")) ];
         requests := requests;
         exit := None |}
  | (Eff.Throw error, requests) =>
      match error with
      | ComposioApiKeyError text =>
          {| outputs :=
               [ started;
                 Error (units LF ++ CROSS_MARK :: units (" API Key Error: " +:+ text)) ];
             requests := requests;
             exit := Some 1 |}
      | MCPServerError text _ =>
          {| outputs :=
               [ started;
                 Error (units LF ++ CROSS_MARK :: units (" Server Error: " +:+ text)) ];
             requests := requests;
             exit := Some 1 |}
      | _ =>
          {| outputs :=
               [ started;
                 Error (units LF ++ CROSS_MARK ::
                        units (" Unexpected error: " +:+
                               (if instanceofError error then message error
                                else "Unknown error"))) ];
             requests := requests;
             exit := Some 1 |}
      end
  end.

(** The opening line of the action, and the argument of [console.error]
    for a kind of error and a message, under names. *)
Definition started : Output :=
  Log (units ("Setting up billing MCP server..." +:+ LF)).

Definition failure (kind text : string) : Output :=
  Error (units LF ++ CROSS_MARK :: units (" " +:+ kind +:+ ": " +:+ text)).

End Cli.

(** ** What the operations ask of the platform, and what is read off a result

    Names for the arguments the sources pass to the SDK, used to state the
    properties; [setup_requests] and [generateUserUrl_requests] below show
    that these are the requests made. *)

Module Scenario.

Import Sdk.

(** The client [setup] constructs. *)
Definition setup_client (config : SetupConfig.t) : ComposioOptions :=
  {| apiKey := SetupConfig.composioApiKey config;
     disableVersionCheck := true |}.

(** The name under which [setup] asks for the server. *)
Definition setup_name (config : SetupConfig.t) : string :=
  Js.or_else (SetupConfig.serverName config) "billing-invoice-automation".

(** The options of the create call: the manifest. *)
Definition setup_options : McpCreateOptions :=
  {| toolkits := map ToolkitConfig.toolkit Config.BILLING_TOOLKITS;
     allowedTools := Config.BILLING_ALLOWED_TOOLS;
     create_manuallyManageConnections := false |}.

(** The answer of the platform to the create call of [setup]. *)
Definition create_outcome (sdk : Sdk.t) (config : SetupConfig.t)
    : Thrown + ComposioMCPServer.t :=
  mcp_create sdk (setup_client config) (setup_name config) setup_options.

(** The client [generateUserUrl] constructs. *)
Definition generate_client (config : GenerateUrlConfig.t) : ComposioOptions :=
  {| apiKey := GenerateUrlConfig.composioApiKey config;
     disableVersionCheck := true |}.

(** The answer of the platform to the generate call of [generateUserUrl]. *)
Definition generate_outcome (sdk : Sdk.t) (config : GenerateUrlConfig.t)
    : Thrown + ComposioMCPInstance.t :=
  mcp_generate sdk (generate_client config)
    (GenerateUrlConfig.userId config) (GenerateUrlConfig.serverId config)
    {| generate_manuallyManageConnections := false |}.

(** The three fields of a [GenerateUrlConfig] are present. *)
Definition fields_present (config : GenerateUrlConfig.t) : Prop :=
  Js.trim (GenerateUrlConfig.composioApiKey config) <> ""
  /\ Js.trim (GenerateUrlConfig.serverId config) <> ""
  /\ Js.trim (GenerateUrlConfig.userId config) <> "".

(** The value of the header [x-api-key] of the entry [label] of a document,
    if the document has it. *)
Definition vscode_api_key (doc : VSCodeMCPConfig.t) (label : string)
    : option string :=
  match VSCodeMCPConfig.mcpServers doc !! label with
  | Some entry => VSCodeServer.headers entry !! "x-api-key"
  | None => None
  end.

Definition claude_api_key (doc : ClaudeDesktopMCPConfig.t) (label : string)
    : option string :=
  match ClaudeDesktopMCPConfig.mcpServers doc !! label with
  | Some entry =>
      match ClaudeDesktopServer.headers entry with
      | Some headers => headers !! "x-api-key"
      | None => None
      end
  | None => None
  end.

(** The value of any header of the entry [label] of a document. *)
Definition vscode_header (doc : VSCodeMCPConfig.t) (label name : string)
    : option string :=
  match VSCodeMCPConfig.mcpServers doc !! label with
  | Some entry => VSCodeServer.headers entry !! name
  | None => None
  end.

Definition claude_header (doc : ClaudeDesktopMCPConfig.t) (label name : string)
    : option string :=
  match ClaudeDesktopMCPConfig.mcpServers doc !! label with
  | Some entry =>
      match ClaudeDesktopServer.headers entry with
      | Some headers => headers !! name
      | None => None
      end
  | None => None
  end.

(** A [VSCodeServer] entry read at the type of a [ClaudeDesktopServer]
    entry, whose fields are a superset and all optional. *)
Definition as_claude (entry : VSCodeServer.t) : ClaudeDesktopServer.t :=
  {| ClaudeDesktopServer.command := None;
     ClaudeDesktopServer.args := None;
     ClaudeDesktopServer.url := Some (VSCodeServer.url entry);
     ClaudeDesktopServer.type := Some (VSCodeServer.type entry);
     ClaudeDesktopServer.headers := Some (VSCodeServer.headers entry) |}.

End Scenario.

(** ** The naming convention of tool names

    A tool name is qualified by its toolkit: the identifier of the toolkit in
    upper case, an underscore, the name of the action. *)

Module Manifest.

Definition upper (c : ascii) : ascii :=
  let n := nat_of_ascii c in
  if (97 <=? n)%nat && (n <=? 122)%nat then ascii_of_nat (n - 32) else c.

Fixpoint toUpperCase (s : string) : string :=
  match s with
  | EmptyString => EmptyString
  | String c s' => String (upper c) (toUpperCase s')
  end.

Definition qualified_under (toolkit tool : string) : bool :=
  String.prefix (toUpperCase toolkit +:+ "_") tool.

(** The toolkits of the manifest a tool is qualified under. *)
Definition toolkits_of (tool : string) : list string :=
  List.filter (fun toolkit => qualified_under toolkit tool)
    (map ToolkitConfig.toolkit Config.BILLING_TOOLKITS).

(** The allowed tools of a toolkit. *)
Definition tools_of (toolkit : string) : list string :=
  List.filter (qualified_under toolkit) Config.BILLING_ALLOWED_TOOLS.

End Manifest.

(** ** Platforms to run the operations against *)

Module Stub.

Import Sdk.

(** A platform that grants every request. *)
Definition granting : Sdk.t :=
  {| construct := fun _ => None;
     mcp_create := fun _ name _ =>
       inr {| ComposioMCPServer.id := "srv-1";
              ComposioMCPServer.name := name;
              ComposioMCPServer.toolkits :=
                [ {| ToolkitConfig.toolkit := "slack";
                     ToolkitConfig.authConfigId := Some "ac_1" |} ];
              ComposioMCPServer.allowedTools := [ "SLACK_SEND_MESSAGE" ];
              ComposioMCPServer.createdAt := "2025-11-01T00:00:00Z" |};
     mcp_generate := fun _ userId serverId _ =>
       inr {| ComposioMCPInstance.url :=
                "https://host/v3/mcp/" +:+ serverId +:+ "?user_id=" +:+ userId;
              ComposioMCPInstance.allowedTools := [] |} |}.

(** A platform that fails every request with the given value. *)
Definition failing (error : Thrown) : Sdk.t :=
  {| construct := fun _ => None;
     mcp_create := fun _ _ _ => inl error;
     mcp_generate := fun _ _ _ _ => inl error |}.

(** An SDK whose constructor throws the given value. *)
Definition unconstructible (error : Thrown) : Sdk.t :=
  {| construct := fun _ => Some error;
     mcp_create := mcp_create granting;
     mcp_generate := mcp_generate granting |}.

End Stub.

(** * Properties *)

(** ** Strings *)

Section JsStrings.

Import Js.

Lemma string_app_assoc (a b c : string) : (a +:+ b) +:+ c = a +:+ b +:+ c.
Proof.
  induction a as [|x a IH]; [reflexivity|].
  change (String x ((a +:+ b) +:+ c) = String x (a +:+ b +:+ c)).
  by rewrite IH.
Qed.

Lemma prefix_true_iff (sub s : string) :
  String.prefix sub s = true <-> exists rest, s = sub +:+ rest.
Proof.
  revert s. induction sub as [|a sub IH]; intros s.
  - split; [intros _; exists s; reflexivity | intros _; destruct s; reflexivity].
  - destruct s as [|b s]; simpl.
    + split; [discriminate | intros [rest H]; discriminate].
    + destruct (ascii_dec a b) as [->|Hne].
      * rewrite IH. split; intros [rest H]; exists rest.
        -- by rewrite H.
        -- by injection H.
      * split; [discriminate | intros [rest H]; injection H; congruence].
Qed.

(** [includes] is the occurrence of [sub] somewhere in [s]. *)
Lemma includes_true_iff (s sub : string) :
  includes s sub = true <-> exists before after, s = before +:+ sub +:+ after.
Proof.
  induction s as [|c s IH].
  - cbn [includes]. rewrite orb_false_r, prefix_true_iff. split.
    + intros [rest H]. exists "", rest. exact H.
    + intros [before [after H]]. destruct before; [by exists after | discriminate].
  - cbn [includes]. rewrite orb_true_iff, prefix_true_iff, IH. split.
    + intros [[rest H] | [before [after H]]].
      * exists "", rest. exact H.
      * exists (String c before), after. simpl. by rewrite H.
    + intros [before [after H]]. destruct before as [|c' before].
      * left. by exists after.
      * right. exists before, after. simpl in H. by injection H.
Qed.

Lemma trimStart_blank (s : string) : blank s = true -> trimStart s = "".
Proof.
  induction s as [|c s IH]; simpl; [done|].
  intros [Hc Hs]%andb_true_iff. rewrite Hc. auto.
Qed.

Lemma trimStart_empty_blank (s : string) : trimStart s = "" -> blank s = true.
Proof.
  induction s as [|c s IH]; simpl; [done|].
  destruct (is_whitespace c); [auto | discriminate].
Qed.

Lemma trimEnd_empty_iff (s : string) : trimEnd s = "" <-> blank s = true.
Proof.
  induction s as [|c s IH]; simpl; [done|].
  destruct (is_whitespace c); simpl.
  - rewrite <- IH. destruct (trimEnd s); simpl; split; done.
  - split; discriminate.
Qed.

Lemma trimStart_suffix_blank (s : string) :
  blank (trimStart s) = true -> blank s = true.
Proof.
  induction s as [|c s IH]; simpl; [done|].
  destruct (is_whitespace c) eqn:Hc; simpl; [auto|].
  by rewrite Hc.
Qed.

(** A string trims to the empty string exactly when it is empty or made of
    white space only. *)
Lemma trim_empty_iff (s : string) : trim s = "" <-> blank s = true.
Proof.
  unfold trim. rewrite trimEnd_empty_iff. split.
  - apply trimStart_suffix_blank.
  - intros H. by rewrite (trimStart_blank s H).
Qed.

(** The test [!s || s.trim() === ''] is the test [s.trim() === '']. *)
Lemma missing_true_iff (s : string) : missing s = true <-> trim s = "".
Proof.
  unfold missing, truthy. rewrite orb_true_iff, negb_true_iff, negb_false_iff.
  rewrite !String.eqb_eq. split; [|auto].
  intros [-> | H]; [reflexivity | exact H].
Qed.

Lemma missing_false_iff (s : string) : missing s = false <-> trim s <> "".
Proof.
  rewrite <- missing_true_iff. destruct (missing s); split; congruence.
Qed.

Lemma or_else_empty (b : string) : or_else "" b = b.
Proof. reflexivity. Qed.

Lemma or_else_nonempty (a b : string) : a <> "" -> or_else a b = a.
Proof.
  intros H. unfold or_else, truthy.
  destruct (String.eqb_spec a ""); [contradiction | reflexivity].
Qed.

End JsStrings.

(** ** [setup] *)

Section SetupProperties.

Import Sdk Scenario.

Variable sdk : Sdk.t.

(** The three ways [setup] completes, with the requests it has made. *)
Lemma setup_construct_throws (config : SetupConfig.t) (error : Thrown) :
  construct sdk (setup_client config) = Some error ->
  Setup.setup sdk config = (Eff.Throw error, [NewComposio (setup_client config)]).
Proof.
  intros H. unfold Setup.setup, Eff.newComposio.
  change (construct sdk _) with (construct sdk (setup_client config)).
  by rewrite H.
Qed.

Lemma setup_created (config : SetupConfig.t) (server : ComposioMCPServer.t) :
  construct sdk (setup_client config) = None ->
  create_outcome sdk config = inr server ->
  Setup.setup sdk config =
    (Eff.Return
       {| SetupResult.serverId := ComposioMCPServer.id server;
          SetupResult.serverName := ComposioMCPServer.name server;
          SetupResult.toolkits := toolkits setup_options;
          SetupResult.allowedTools := allowedTools setup_options |},
     [ NewComposio (setup_client config);
       McpCreate (setup_client config) (setup_name config) setup_options ]).
Proof.
  intros Hnew Hcreate. unfold Setup.setup, Eff.newComposio, Eff.mcpCreate.
  change (construct sdk _) with (construct sdk (setup_client config)).
  rewrite Hnew. cbn [Eff.bind].
  change (mcp_create sdk _ _ _) with (create_outcome sdk config).
  by rewrite Hcreate.
Qed.

Lemma setup_rejected (config : SetupConfig.t) (error : Thrown) :
  construct sdk (setup_client config) = None ->
  create_outcome sdk config = inl error ->
  Setup.setup sdk config =
    (Eff.Throw
       (let errorMessage :=
          if instanceofError error then message error else "Unknown error" in
        if Js.includes errorMessage "already exists" then
          MCPServerError
            ("MCP server with name '" +:+ setup_name config +:+
             "' already exists with different configuration. " +:+
             "Please use a different server name or delete the existing server.")
            (Some error)
        else if Js.includes errorMessage "Invalid"
                || Js.includes errorMessage "unauthorized"
                || Js.includes errorMessage "401" then
          ComposioApiKeyError "Invalid Composio API key"
        else
          MCPServerError ("Failed to create MCP server: " +:+ errorMessage)
            (Some error)),
     [ NewComposio (setup_client config);
       McpCreate (setup_client config) (setup_name config) setup_options ]).
Proof.
  intros Hnew Hcreate. unfold Setup.setup, Eff.newComposio, Eff.mcpCreate.
  change (construct sdk _) with (construct sdk (setup_client config)).
  rewrite Hnew. cbn [Eff.bind].
  change (mcp_create sdk _ _ _) with (create_outcome sdk config).
  rewrite Hcreate. cbn [Eff.bind Eff.try_catch]. cbv zeta.
  change (Js.or_else _ _) with (setup_name config).
  destruct (Js.includes _ "already exists"); [reflexivity|].
  destruct (_ || _ || _); reflexivity.
Qed.

(** Whenever the client is constructed, [setup] makes exactly one request to
    the platform: the create call, under [setup_name], with the manifest. *)
Lemma setup_requests (config : SetupConfig.t) :
  construct sdk (setup_client config) = None ->
  Eff.requests (Setup.setup sdk config) =
    [ NewComposio (setup_client config);
      McpCreate (setup_client config) (setup_name config) setup_options ].
Proof.
  intros Hnew. destruct (create_outcome sdk config) as [error|server] eqn:Hc.
  - by rewrite (setup_rejected config error Hnew Hc).
  - by rewrite (setup_created config server Hnew Hc).
Qed.

(** A name that is not empty is the name asked for of the platform. *)
Lemma setup_name_requested (config : SetupConfig.t) :
  SetupConfig.serverName config <> "" ->
  setup_name config = SetupConfig.serverName config.
Proof. apply or_else_nonempty. Qed.

Lemma setup_name_default (config : SetupConfig.t) :
  SetupConfig.serverName config = "" ->
  setup_name config = "billing-invoice-automation".
Proof. unfold setup_name. by intros ->. Qed.

End SetupProperties.

(** ** [generateUserUrl] *)

Section GenerateUserUrlProperties.

Import Sdk Scenario.

Variable sdk : Sdk.t.

Lemma generateUserUrl_no_key (config : GenerateUrlConfig.t) :
  Js.trim (GenerateUrlConfig.composioApiKey config) = "" ->
  GenerateUrl.generateUserUrl sdk config =
    (Eff.Throw (UrlGenerationError "Composio API key is required" None), []).
Proof.
  intros H%missing_true_iff. unfold GenerateUrl.generateUserUrl.
  by rewrite H.
Qed.

Lemma generateUserUrl_no_serverId (config : GenerateUrlConfig.t) :
  Js.trim (GenerateUrlConfig.composioApiKey config) <> "" ->
  Js.trim (GenerateUrlConfig.serverId config) = "" ->
  GenerateUrl.generateUserUrl sdk config =
    (Eff.Throw (UrlGenerationError "Server ID is required" None), []).
Proof.
  intros Hk%missing_false_iff Hs%missing_true_iff.
  unfold GenerateUrl.generateUserUrl. by rewrite Hk, Hs.
Qed.

Lemma generateUserUrl_no_userId (config : GenerateUrlConfig.t) :
  Js.trim (GenerateUrlConfig.composioApiKey config) <> "" ->
  Js.trim (GenerateUrlConfig.serverId config) <> "" ->
  Js.trim (GenerateUrlConfig.userId config) = "" ->
  GenerateUrl.generateUserUrl sdk config =
    (Eff.Throw (UrlGenerationError "User ID is required" None), []).
Proof.
  intros Hk%missing_false_iff Hs%missing_false_iff Hu%missing_true_iff.
  unfold GenerateUrl.generateUserUrl. by rewrite Hk, Hs, Hu.
Qed.

(** Past the three checks, the body of [generateUserUrl]. *)
Lemma generateUserUrl_validated (config : GenerateUrlConfig.t) :
  fields_present config ->
  GenerateUrl.generateUserUrl sdk config =
    match construct sdk (generate_client config) with
    | Some error => (Eff.Throw error, [NewComposio (generate_client config)])
    | None =>
        (match generate_outcome sdk config with
         | inr serverInstance =>
             Eff.Return
               {| GeneratedUrl.url := ComposioMCPInstance.url serverInstance;
                  GeneratedUrl.headers :=
                    {[ "x-api-key" :=
                         GenerateUrlConfig.composioApiKey config ]} |}
         | inl error =>
             Eff.Throw
               (UrlGenerationError
                  ("Failed to generate MCP URL: " +:+
                   (if instanceofError error then message error
                    else "Unknown error"))
                  (Some error))
         end,
         [ NewComposio (generate_client config);
           McpGenerate (generate_client config)
             (GenerateUrlConfig.userId config)
             (GenerateUrlConfig.serverId config)
             {| generate_manuallyManageConnections := false |} ])
    end.
Proof.
  intros (Hk%missing_false_iff & Hs%missing_false_iff & Hu%missing_false_iff).
  unfold GenerateUrl.generateUserUrl. rewrite Hk, Hs, Hu.
  unfold Eff.newComposio, Eff.mcpGenerate.
  change (construct sdk _) with (construct sdk (generate_client config)).
  destruct (construct sdk (generate_client config)); [reflexivity|].
  cbn [Eff.bind].
  change (mcp_generate sdk _ _ _ _) with (generate_outcome sdk config).
  destruct (generate_outcome sdk config); reflexivity.
Qed.

(** The requests of [generateUserUrl]: none unless the three fields are
    present, and then, the client constructed, exactly one generate call. *)
Lemma generateUserUrl_requests (config : GenerateUrlConfig.t) :
  fields_present config ->
  construct sdk (generate_client config) = None ->
  Eff.requests (GenerateUrl.generateUserUrl sdk config) =
    [ NewComposio (generate_client config);
      McpGenerate (generate_client config)
        (GenerateUrlConfig.userId config)
        (GenerateUrlConfig.serverId config)
        {| generate_manuallyManageConnections := false |} ].
Proof.
  intros Hp Hnew. rewrite (generateUserUrl_validated config Hp), Hnew.
  reflexivity.
Qed.

End GenerateUserUrlProperties.

(** ** The error taxonomy of the two operations *)

Section PlatformFailures.

Import Sdk Scenario.

(** C1 (as amended).  Let the platform fail with an [Error] whose message
    contains "401".  [setup] then throws the [ComposioApiKeyError]
    "Invalid Composio API key", unless the message also contains
    "already exists", the conflict case being tested first.
    [generateUserUrl] has no such classification: it throws the
    [UrlGenerationError] that carries the message after the prefix
    "Failed to generate MCP URL: " and the failure as its cause. *)
Theorem platform_401_classification (sdk : Sdk.t) (error : Thrown) :
  instanceofError error = true ->
  Js.includes (message error) "401" = true ->
  (forall config : SetupConfig.t,
      construct sdk (setup_client config) = None ->
      create_outcome sdk config = inl error ->
      Js.includes (message error) "already exists" = false ->
      Eff.completion (Setup.setup sdk config) =
        Eff.Throw (ComposioApiKeyError "Invalid Composio API key"))
  /\ (forall config : GenerateUrlConfig.t,
      fields_present config ->
      construct sdk (generate_client config) = None ->
      generate_outcome sdk config = inl error ->
      Eff.completion (GenerateUrl.generateUserUrl sdk config) =
        Eff.Throw
          (UrlGenerationError
             ("Failed to generate MCP URL: " +:+ message error)
             (Some error))).
Proof.
  intros Herr H401. split.
  - intros config Hnew Hcreate Hconflict.
    rewrite (setup_rejected sdk config error Hnew Hcreate).
    cbv zeta. rewrite Herr, Hconflict, H401, !orb_true_r. reflexivity.
  - intros config Hpresent Hnew Hgenerate.
    rewrite (generateUserUrl_validated sdk config Hpresent), Hnew, Hgenerate.
    by rewrite Herr.
Qed.

Lemma platform_401_classification_witness :
  Eff.completion
    (Setup.setup
       (Stub.failing (ForeignError "Request failed with status code 401"))
       {| SetupConfig.composioApiKey := "k1";
          SetupConfig.serverName := "billing-invoice-automation" |}) =
    Eff.Throw (ComposioApiKeyError "Invalid Composio API key")
  /\ Eff.completion
       (GenerateUrl.generateUserUrl
          (Stub.failing (ForeignError "Request failed with status code 401"))
          {| GenerateUrlConfig.composioApiKey := "k1";
             GenerateUrlConfig.serverId := "srv-1";
             GenerateUrlConfig.userId := "u@example.com" |}) =
       Eff.Throw
         (UrlGenerationError
            "Failed to generate MCP URL: Request failed with status code 401"
            (Some (ForeignError "Request failed with status code 401"))).
Proof.
  destruct (platform_401_classification
              (Stub.failing (ForeignError "Request failed with status code 401"))
              (ForeignError "Request failed with status code 401")
              eq_refl eq_refl) as [Hsetup Hgenerate].
  split.
  - apply Hsetup; reflexivity.
  - apply Hgenerate; [|reflexivity..].
    repeat split; vm_compute; discriminate.
Defined.

(** C1, as stated, fails: on a platform failure "... 401" [generateUserUrl]
    throws a [UrlGenerationError], and [setup] throws the conflict
    [MCPServerError] when the message also contains "already exists". *)
Lemma platform_401_not_always_credential_error :
  Js.includes "Request failed with status code 401" "401" = true
  /\ Eff.completion
       (GenerateUrl.generateUserUrl
          (Stub.failing (ForeignError "Request failed with status code 401"))
          {| GenerateUrlConfig.composioApiKey := "k1";
             GenerateUrlConfig.serverId := "srv-1";
             GenerateUrlConfig.userId := "u@example.com" |}) =
       Eff.Throw
         (UrlGenerationError
            "Failed to generate MCP URL: Request failed with status code 401"
            (Some (ForeignError "Request failed with status code 401")))
  /\ Js.includes "401: server 'billing' already exists" "401" = true
  /\ Eff.completion
       (Setup.setup
          (Stub.failing (ForeignError "401: server 'billing' already exists"))
          {| SetupConfig.composioApiKey := "k1";
             SetupConfig.serverName := "billing" |}) =
       Eff.Throw
         (MCPServerError
            ("MCP server with name 'billing' already exists with different configuration. " +:+
             "Please use a different server name or delete the existing server.")
            (Some (ForeignError "401: server 'billing' already exists")))
  /\ (forall text : string,
        Eff.completion
          (GenerateUrl.generateUserUrl
             (Stub.failing (ForeignError "Request failed with status code 401"))
             {| GenerateUrlConfig.composioApiKey := "k1";
                GenerateUrlConfig.serverId := "srv-1";
                GenerateUrlConfig.userId := "u@example.com" |}) <>
          Eff.Throw (ComposioApiKeyError text)).
Proof.
  repeat (split; [reflexivity|]). intros text. vm_compute. discriminate.
Qed.

(** C7.  Let the create call fail with an [Error] whose message contains
    "already exists".  [setup] throws an [MCPServerError] whose cause is that
    failure and whose message names the server name asked for and proposes
    a different name or the deletion of the existing server; this whatever
    else the message contains, the markers of an authorization failure
    included. *)
Theorem setup_name_conflict (sdk : Sdk.t) (config : SetupConfig.t)
    (error : Thrown) :
  construct sdk (setup_client config) = None ->
  create_outcome sdk config = inl error ->
  instanceofError error = true ->
  Js.includes (message error) "already exists" = true ->
  exists text : string,
    Eff.completion (Setup.setup sdk config) =
      Eff.Throw (MCPServerError text (Some error))
    /\ text =
         "MCP server with name '" +:+ setup_name config +:+
         "' already exists with different configuration. " +:+
         "Please use a different server name or delete the existing server."
    /\ Js.includes text (setup_name config) = true
    /\ Js.includes text
         "use a different server name or delete the existing server" = true.
Proof.
  intros Hnew Hcreate Herr Hconflict. eexists. split; [|split; [reflexivity|]].
  - rewrite (setup_rejected sdk config error Hnew Hcreate).
    cbv zeta. rewrite Herr, Hconflict. reflexivity.
  - split; apply includes_true_iff.
    + by exists "MCP server with name '",
        ("' already exists with different configuration. " +:+
         "Please use a different server name or delete the existing server.").
    + exists ("MCP server with name '" +:+ setup_name config +:+
              "' already exists with different configuration. Please "), ".".
      by rewrite !string_app_assoc.
Qed.

Lemma setup_name_conflict_witness :
  exists text : string,
    Eff.completion
      (Setup.setup
         (Stub.failing (ForeignError "401 unauthorized: name already exists"))
         {| SetupConfig.composioApiKey := "k1";
            SetupConfig.serverName := "billing" |}) =
      Eff.Throw
        (MCPServerError text
           (Some (ForeignError "401 unauthorized: name already exists")))
    /\ text =
         "MCP server with name 'billing' already exists with different configuration. Please use a different server name or delete the existing server."
    /\ Js.includes text "billing" = true
    /\ Js.includes text
         "use a different server name or delete the existing server" = true.
Proof.
  exact (setup_name_conflict
           (Stub.failing (ForeignError "401 unauthorized: name already exists"))
           {| SetupConfig.composioApiKey := "k1";
              SetupConfig.serverName := "billing" |}
           (ForeignError "401 unauthorized: name already exists")
           eq_refl eq_refl eq_refl eq_refl).
Defined.

End PlatformFailures.

(** ** Validation and result of provisioning *)

Section Provisioning.

Import Sdk Scenario.

(** C2 (as amended).  The credential is validated where it is read from the
    environment: when [COMPOSIO_API_KEY] is not set, empty or made of white
    space only, [setupFromEnv] throws a [ComposioApiKeyError] and nothing has
    been asked of the SDK, hence of the platform.  [setup] validates neither
    field of its argument: once the client is constructed the create call is
    made, under the default name when the name asked for is empty and under
    the name asked for, as it is, otherwise. *)
Theorem provisioning_validation (sdk : Sdk.t) (env : Setup.Env)
    (serverName : option string) (config : SetupConfig.t) :
  ((forall key, Setup.COMPOSIO_API_KEY env = Some key -> Js.trim key = "") ->
   Setup.setupFromEnv sdk env serverName =
     (Eff.Throw
        (ComposioApiKeyError
           "COMPOSIO_API_KEY environment variable is required."),
      []))
  /\ (construct sdk (setup_client config) = None ->
      Eff.network_calls (Setup.setup sdk config) =
        [ McpCreate (setup_client config)
            (if String.eqb (SetupConfig.serverName config) ""
             then "billing-invoice-automation"
             else SetupConfig.serverName config)
            setup_options ]).
Proof.
  split.
  - intros Hkey. unfold Setup.setupFromEnv, Setup.getApiKey.
    destruct (Setup.COMPOSIO_API_KEY env) as [key|]; [|reflexivity].
    specialize (Hkey key eq_refl). apply missing_true_iff in Hkey.
    by rewrite Hkey.
  - intros Hnew. unfold Eff.network_calls.
    rewrite (setup_requests sdk config Hnew).
    unfold setup_name, Js.or_else, Js.truthy.
    by destruct (String.eqb (SetupConfig.serverName config) "").
Qed.

Lemma provisioning_validation_witness :
  Setup.setupFromEnv Stub.granting {| Setup.COMPOSIO_API_KEY := Some "   " |}
    (Some "billing") =
    (Eff.Throw
       (ComposioApiKeyError
          "COMPOSIO_API_KEY environment variable is required."),
     [])
  /\ Eff.network_calls
       (Setup.setup Stub.granting
          {| SetupConfig.composioApiKey := "k1";
             SetupConfig.serverName := "" |}) =
       [ McpCreate {| apiKey := "k1"; disableVersionCheck := true |}
           "billing-invoice-automation" setup_options ].
Proof.
  destruct (provisioning_validation Stub.granting
              {| Setup.COMPOSIO_API_KEY := Some "   " |} (Some "billing")
              {| SetupConfig.composioApiKey := "k1";
                 SetupConfig.serverName := "" |}) as [Hcredential Hname].
  split.
  - apply Hcredential. intros key [= <-]. reflexivity.
  - apply Hname. reflexivity.
Defined.

(** C2, as stated, fails.  With an empty name [setup] asks the platform for
    the server under the default name and returns; with a credential of
    white space only it makes the create call all the same. *)
Lemma setup_blank_fields_reach_platform :
  Js.trim "" = ""
  /\ Setup.setup Stub.granting
       {| SetupConfig.composioApiKey := "k1"; SetupConfig.serverName := "" |} =
     (Eff.Return
        {| SetupResult.serverId := "srv-1";
           SetupResult.serverName := "billing-invoice-automation";
           SetupResult.toolkits :=
             [ "gmail"; "googlesheets"; "googledrive"; "outlook"; "xero" ];
           SetupResult.allowedTools := Config.BILLING_ALLOWED_TOOLS |},
      [ NewComposio {| apiKey := "k1"; disableVersionCheck := true |};
        McpCreate {| apiKey := "k1"; disableVersionCheck := true |}
          "billing-invoice-automation" setup_options ])
  /\ Js.trim "   " = ""
  /\ Eff.network_calls
       (Setup.setup Stub.granting
          {| SetupConfig.composioApiKey := "   ";
             SetupConfig.serverName := "billing" |}) =
     [ McpCreate {| apiKey := "   "; disableVersionCheck := true |}
         "billing" setup_options ]
  /\ (forall text : string,
        Eff.completion
          (Setup.setup Stub.granting
             {| SetupConfig.composioApiKey := "k1";
                SetupConfig.serverName := "" |}) <>
          Eff.Throw (ComposioApiKeyError text)).
Proof.
  repeat (split; [reflexivity|]). intros text. vm_compute. discriminate.
Qed.

(** C3.  When [setup] returns, the lists of its result are those of the
    manifest, in order: the five toolkit identifiers and the eleven tool
    names.  The platform has answered the create call, and of its answer the
    result holds the [id] and the [name], nothing else. *)
Theorem setup_result_is_manifest (sdk : Sdk.t) (config : SetupConfig.t)
    (result : SetupResult.t) :
  Eff.completion (Setup.setup sdk config) = Eff.Return result ->
  SetupResult.toolkits result =
    [ "gmail"; "googlesheets"; "googledrive"; "outlook"; "xero" ]
  /\ SetupResult.toolkits result =
       map ToolkitConfig.toolkit Config.BILLING_TOOLKITS
  /\ SetupResult.allowedTools result = Config.BILLING_ALLOWED_TOOLS
  /\ length (SetupResult.allowedTools result) = 11
  /\ exists server : ComposioMCPServer.t,
       create_outcome sdk config = inr server
       /\ result =
            {| SetupResult.serverId := ComposioMCPServer.id server;
               SetupResult.serverName := ComposioMCPServer.name server;
               SetupResult.toolkits :=
                 map ToolkitConfig.toolkit Config.BILLING_TOOLKITS;
               SetupResult.allowedTools := Config.BILLING_ALLOWED_TOOLS |}.
Proof.
  intros Hreturn.
  destruct (construct sdk (setup_client config)) as [error|] eqn:Hnew.
  { rewrite (setup_construct_throws sdk config error Hnew) in Hreturn.
    discriminate. }
  destruct (create_outcome sdk config) as [error|server] eqn:Hcreate.
  { rewrite (setup_rejected sdk config error Hnew Hcreate) in Hreturn.
    discriminate. }
  rewrite (setup_created sdk config server Hnew Hcreate) in Hreturn.
  injection Hreturn as <-. repeat split. by exists server.
Qed.

Lemma setup_result_is_manifest_witness :
  Eff.completion
    (Setup.setup Stub.granting
       {| SetupConfig.composioApiKey := "k1";
          SetupConfig.serverName := "billing-invoice-automation" |}) =
    Eff.Return
      {| SetupResult.serverId := "srv-1";
         SetupResult.serverName := "billing-invoice-automation";
         SetupResult.toolkits :=
           [ "gmail"; "googlesheets"; "googledrive"; "outlook"; "xero" ];
         SetupResult.allowedTools := Config.BILLING_ALLOWED_TOOLS |}
  /\ create_outcome Stub.granting
       {| SetupConfig.composioApiKey := "k1";
          SetupConfig.serverName := "billing-invoice-automation" |} =
     inr {| ComposioMCPServer.id := "srv-1";
            ComposioMCPServer.name := "billing-invoice-automation";
            ComposioMCPServer.toolkits :=
              [ {| ToolkitConfig.toolkit := "slack";
                   ToolkitConfig.authConfigId := Some "ac_1" |} ];
            ComposioMCPServer.allowedTools := [ "SLACK_SEND_MESSAGE" ];
            ComposioMCPServer.createdAt := "2025-11-01T00:00:00Z" |}
  /\ SetupResult.toolkits
       {| SetupResult.serverId := "srv-1";
          SetupResult.serverName := "billing-invoice-automation";
          SetupResult.toolkits :=
            [ "gmail"; "googlesheets"; "googledrive"; "outlook"; "xero" ];
          SetupResult.allowedTools := Config.BILLING_ALLOWED_TOOLS |} =
     [ "gmail"; "googlesheets"; "googledrive"; "outlook"; "xero" ].
Proof.
  split; [reflexivity|]. split; [reflexivity|].
  apply (setup_result_is_manifest Stub.granting
           {| SetupConfig.composioApiKey := "k1";
              SetupConfig.serverName := "billing-invoice-automation" |}).
  reflexivity.
Defined.

End Provisioning.

(** ** [generateUserUrl]: the order of the checks *)

Section UrlValidation.

Import Sdk Scenario.

(** C5.  [generateUserUrl] tests the API key, then the server id, then the
    user id; the first of them that trims to the empty string decides the
    [UrlGenerationError] thrown, whose message names that field, and nothing
    has been asked of the SDK, hence of the platform. *)
Theorem generateUserUrl_validation_order (sdk : Sdk.t)
    (config : GenerateUrlConfig.t) :
  (Js.trim (GenerateUrlConfig.composioApiKey config) = "" ->
   GenerateUrl.generateUserUrl sdk config =
     (Eff.Throw (UrlGenerationError "Composio API key is required" None), []))
  /\ (Js.trim (GenerateUrlConfig.composioApiKey config) <> "" ->
      Js.trim (GenerateUrlConfig.serverId config) = "" ->
      GenerateUrl.generateUserUrl sdk config =
        (Eff.Throw (UrlGenerationError "Server ID is required" None), []))
  /\ (Js.trim (GenerateUrlConfig.composioApiKey config) <> "" ->
      Js.trim (GenerateUrlConfig.serverId config) <> "" ->
      Js.trim (GenerateUrlConfig.userId config) = "" ->
      GenerateUrl.generateUserUrl sdk config =
        (Eff.Throw (UrlGenerationError "User ID is required" None), [])).
Proof.
  split; [|split].
  - apply generateUserUrl_no_key.
  - apply generateUserUrl_no_serverId.
  - apply generateUserUrl_no_userId.
Qed.

Lemma generateUserUrl_validation_order_witness :
  GenerateUrl.generateUserUrl Stub.granting
    {| GenerateUrlConfig.composioApiKey := " ";
       GenerateUrlConfig.serverId := "";
       GenerateUrlConfig.userId := "" |} =
    (Eff.Throw (UrlGenerationError "Composio API key is required" None), [])
  /\ GenerateUrl.generateUserUrl Stub.granting
       {| GenerateUrlConfig.composioApiKey := "k1";
          GenerateUrlConfig.serverId := "  ";
          GenerateUrlConfig.userId := "" |} =
     (Eff.Throw (UrlGenerationError "Server ID is required" None), [])
  /\ GenerateUrl.generateUserUrl Stub.granting
       {| GenerateUrlConfig.composioApiKey := "k1";
          GenerateUrlConfig.serverId := "srv-1";
          GenerateUrlConfig.userId := "" |} =
     (Eff.Throw (UrlGenerationError "User ID is required" None), []).
Proof.
  split; [|split].
  - apply (generateUserUrl_validation_order Stub.granting
             {| GenerateUrlConfig.composioApiKey := " ";
                GenerateUrlConfig.serverId := "";
                GenerateUrlConfig.userId := "" |}).
    reflexivity.
  - apply (generateUserUrl_validation_order Stub.granting
             {| GenerateUrlConfig.composioApiKey := "k1";
                GenerateUrlConfig.serverId := "  ";
                GenerateUrlConfig.userId := "" |}).
    + vm_compute; discriminate.
    + reflexivity.
  - apply (generateUserUrl_validation_order Stub.granting
             {| GenerateUrlConfig.composioApiKey := "k1";
                GenerateUrlConfig.serverId := "srv-1";
                GenerateUrlConfig.userId := "" |}).
    + vm_compute; discriminate.
    + vm_compute; discriminate.
    + reflexivity.
Defined.

End UrlValidation.

(** ** [generateIDEConfigs] and the lookup of paths *)

Section Documents.

Import Scenario.

(** The headers of every entry [generateIDEConfigs] builds. *)
Lemma apiKeyHeader_absent (headers : gmap string string) :
  headers !! "x-api-key" = None \/ headers !! "x-api-key" = Some "" ->
  GenerateUrl.apiKeyHeader headers = "YOUR_COMPOSIO_API_KEY".
Proof.
  unfold GenerateUrl.apiKeyHeader. by intros [-> | ->].
Qed.

Lemma apiKeyHeader_present (headers : gmap string string) (key : string) :
  headers !! "x-api-key" = Some key -> key <> "" ->
  GenerateUrl.apiKeyHeader headers = key.
Proof.
  unfold GenerateUrl.apiKeyHeader. intros -> Hkey.
  by apply or_else_nonempty.
Qed.

(** The three documents, whatever the label: one entry, under the label. *)
Lemma generateIDEConfigs_shape (endpoint : GeneratedUrl.t)
    (serverLabel : option string) :
  GenerateUrl.generateIDEConfigs endpoint serverLabel =
    let entry :=
      {| VSCodeServer.type := "http";
         VSCodeServer.url := GeneratedUrl.url endpoint;
         VSCodeServer.headers :=
           <[ "x-api-key" :=
                GenerateUrl.apiKeyHeader (GeneratedUrl.headers endpoint) ]>
             (GeneratedUrl.headers endpoint) |} in
    let label := GenerateUrl.serverLabel_or_default serverLabel in
    {| IDEConfig.vscode :=
         {| VSCodeMCPConfig.mcpServers := {[ label := entry ]} |};
       IDEConfig.kiro :=
         {| VSCodeMCPConfig.mcpServers := {[ label := entry ]} |};
       IDEConfig.claudeDesktop :=
         {| ClaudeDesktopMCPConfig.mcpServers :=
              {[ label := as_claude entry ]} |} |}.
Proof. reflexivity. Qed.

Lemma api_key_of_documents (endpoint : GeneratedUrl.t)
    (serverLabel : option string) :
  let configs := GenerateUrl.generateIDEConfigs endpoint serverLabel in
  let label := GenerateUrl.serverLabel_or_default serverLabel in
  let value := Some (GenerateUrl.apiKeyHeader (GeneratedUrl.headers endpoint)) in
  vscode_api_key (IDEConfig.vscode configs) label = value
  /\ vscode_api_key (IDEConfig.kiro configs) label = value
  /\ claude_api_key (IDEConfig.claudeDesktop configs) label = value.
Proof.
  cbv zeta. rewrite generateIDEConfigs_shape. cbv zeta.
  unfold vscode_api_key, claude_api_key. cbn.
  rewrite !lookup_singleton_eq. cbn. by rewrite !lookup_insert_eq.
Qed.

(** C4.  When the headers of the endpoint have no "x-api-key", or an empty
    one, the header "x-api-key" of each of the three documents is the text
    "YOUR_COMPOSIO_API_KEY"; when they have a value that is not empty, it is
    that value. *)
Theorem api_key_header_or_placeholder (endpoint : GeneratedUrl.t)
    (serverLabel : option string) :
  let configs := GenerateUrl.generateIDEConfigs endpoint serverLabel in
  let label := GenerateUrl.serverLabel_or_default serverLabel in
  (GeneratedUrl.headers endpoint !! "x-api-key" = None
   \/ GeneratedUrl.headers endpoint !! "x-api-key" = Some "" ->
   vscode_api_key (IDEConfig.vscode configs) label =
     Some "YOUR_COMPOSIO_API_KEY"
   /\ vscode_api_key (IDEConfig.kiro configs) label =
        Some "YOUR_COMPOSIO_API_KEY"
   /\ claude_api_key (IDEConfig.claudeDesktop configs) label =
        Some "YOUR_COMPOSIO_API_KEY")
  /\ (forall key : string,
        GeneratedUrl.headers endpoint !! "x-api-key" = Some key ->
        key <> "" ->
        vscode_api_key (IDEConfig.vscode configs) label = Some key
        /\ vscode_api_key (IDEConfig.kiro configs) label = Some key
        /\ claude_api_key (IDEConfig.claudeDesktop configs) label = Some key).
Proof.
  intros configs label.
  pose proof (api_key_of_documents endpoint serverLabel) as Hdocs.
  cbv zeta in Hdocs. fold configs label in Hdocs. split.
  - intros Habsent. by rewrite <- (apiKeyHeader_absent _ Habsent).
  - intros key Hkey Hne. by rewrite <- (apiKeyHeader_present _ key Hkey Hne).
Qed.

Lemma api_key_header_or_placeholder_witness :
  vscode_api_key
    (IDEConfig.vscode
       (GenerateUrl.generateIDEConfigs
          {| GeneratedUrl.url := "https://host/v3/mcp/srv-1";
             GeneratedUrl.headers := {[ "x-api-key" := "" ]} |} None))
    "billing-agent" = Some "YOUR_COMPOSIO_API_KEY"
  /\ claude_api_key
       (IDEConfig.claudeDesktop
          (GenerateUrl.generateIDEConfigs
             {| GeneratedUrl.url := "https://host/v3/mcp/srv-1";
                GeneratedUrl.headers := {[ "accept" := "*/*" ]} |}
             (Some "billing")))
       "billing" = Some "YOUR_COMPOSIO_API_KEY"
  /\ vscode_api_key
       (IDEConfig.kiro
          (GenerateUrl.generateIDEConfigs
             {| GeneratedUrl.url := "https://host/v3/mcp/srv-1";
                GeneratedUrl.headers := {[ "x-api-key" := "k1" ]} |}
             (Some "billing")))
       "billing" = Some "k1".
Proof.
  split; [|split].
  - destruct (api_key_header_or_placeholder
                {| GeneratedUrl.url := "https://host/v3/mcp/srv-1";
                   GeneratedUrl.headers := {[ "x-api-key" := "" ]} |} None)
      as [Habsent _].
    apply Habsent. right. reflexivity.
  - destruct (api_key_header_or_placeholder
                {| GeneratedUrl.url := "https://host/v3/mcp/srv-1";
                   GeneratedUrl.headers := {[ "accept" := "*/*" ]} |}
                (Some "billing"))
      as [Habsent _].
    apply Habsent. left. reflexivity.
  - destruct (api_key_header_or_placeholder
                {| GeneratedUrl.url := "https://host/v3/mcp/srv-1";
                   GeneratedUrl.headers := {[ "x-api-key" := "k1" ]} |}
                (Some "billing"))
      as [_ Hpresent].
    apply (Hpresent "k1"); [reflexivity | discriminate].
Defined.

(** C6.  [generateIDEConfigs] is a function of its two arguments: equal
    arguments give equal documents.  The label is the one key of
    [mcpServers] in each document and nothing else depends on it: the entry
    under that key is the same for every label. *)
Theorem generateIDEConfigs_label_is_key (endpoint endpoint' : GeneratedUrl.t)
    (serverLabel serverLabel' : option string) :
  (endpoint = endpoint' -> serverLabel = serverLabel' ->
   GenerateUrl.generateIDEConfigs endpoint serverLabel =
     GenerateUrl.generateIDEConfigs endpoint' serverLabel')
  /\ exists (entry : VSCodeServer.t) (extended : ClaudeDesktopServer.t),
       forall label : string,
         GenerateUrl.generateIDEConfigs endpoint (Some label) =
           {| IDEConfig.vscode :=
                {| VSCodeMCPConfig.mcpServers := {[ label := entry ]} |};
              IDEConfig.kiro :=
                {| VSCodeMCPConfig.mcpServers := {[ label := entry ]} |};
              IDEConfig.claudeDesktop :=
                {| ClaudeDesktopMCPConfig.mcpServers :=
                     {[ label := extended ]} |} |}.
Proof.
  split; [by intros -> ->|].
  eexists _, _. intros label. rewrite generateIDEConfigs_shape. reflexivity.
Qed.

Lemma generateIDEConfigs_label_is_key_witness :
  GenerateUrl.generateIDEConfigs
    {| GeneratedUrl.url := "https://host/v3/mcp/srv-1";
       GeneratedUrl.headers := {[ "x-api-key" := "k1" ]} |}
    (Some ("billing" +:+ "-agent")) =
  GenerateUrl.generateIDEConfigs
    {| GeneratedUrl.url := "https://host/v3/mcp/srv-1";
       GeneratedUrl.headers := <[ "x-api-key" := "k1" ]> ∅ |}
    (Some "billing-agent").
Proof.
  apply (proj1 (generateIDEConfigs_label_is_key _ _ _ _)); reflexivity.
Defined.

(** C10.  The three documents are one value.  The [kiro] document is the
    [vscode] document; the [claudeDesktop] document has the same single
    entry read at its own type, with [type] "http", the same [url] and
    [headers], no [command] and no [args], so that at run time it is the same
    object.  The three functions that select one document agree likewise. *)
Theorem three_documents_coincide (endpoint : GeneratedUrl.t)
    (serverLabel : option string) :
  let configs := GenerateUrl.generateIDEConfigs endpoint serverLabel in
  let label := GenerateUrl.serverLabel_or_default serverLabel in
  let headers :=
    <[ "x-api-key" :=
         GenerateUrl.apiKeyHeader (GeneratedUrl.headers endpoint) ]>
      (GeneratedUrl.headers endpoint) in
  IDEConfig.kiro configs = IDEConfig.vscode configs
  /\ ClaudeDesktopMCPConfig.mcpServers (IDEConfig.claudeDesktop configs) =
       as_claude <$> VSCodeMCPConfig.mcpServers (IDEConfig.vscode configs)
  /\ ClaudeDesktopMCPConfig.mcpServers (IDEConfig.claudeDesktop configs) =
       {[ label :=
            {| ClaudeDesktopServer.command := None;
               ClaudeDesktopServer.args := None;
               ClaudeDesktopServer.url := Some (GeneratedUrl.url endpoint);
               ClaudeDesktopServer.type := Some "http";
               ClaudeDesktopServer.headers := Some headers |} ]}
  /\ Js.repr (IDEConfig.claudeDesktop configs) =
       Js.repr (IDEConfig.vscode configs)
  /\ Js.repr (IDEConfig.kiro configs) = Js.repr (IDEConfig.vscode configs)
  /\ GenerateUrl.generateVSCodeConfig endpoint serverLabel =
       IDEConfig.vscode configs
  /\ GenerateUrl.generateKiroConfig endpoint serverLabel =
       GenerateUrl.generateVSCodeConfig endpoint serverLabel
  /\ Js.repr (GenerateUrl.generateClaudeDesktopConfig endpoint serverLabel) =
       Js.repr (GenerateUrl.generateVSCodeConfig endpoint serverLabel).
Proof.
  assert (Hrepr : forall entry : VSCodeServer.t,
             Js.repr (as_claude entry) = Js.repr entry).
  { intros [type url headers]. reflexivity. }
  assert (Hdoc : forall (label : string) (entry : VSCodeServer.t),
             Js.repr
               {| ClaudeDesktopMCPConfig.mcpServers :=
                    {[ label := as_claude entry ]} |} =
             Js.repr
               {| VSCodeMCPConfig.mcpServers := {[ label := entry ]} |}).
  { intros label entry.
    cbv [Js.repr ClaudeDesktopMCPConfig.repr_ClaudeDesktopMCPConfig
         VSCodeMCPConfig.repr_VSCodeMCPConfig Js.prop Js.repr_dict
         ClaudeDesktopMCPConfig.mcpServers VSCodeMCPConfig.mcpServers].
    rewrite !map_fmap_singleton.
    by rewrite (Hrepr entry :
                  ClaudeDesktopServer.repr_ClaudeDesktopServer (as_claude entry)
                  = VSCodeServer.repr_VSCodeServer entry). }
  cbv zeta. unfold GenerateUrl.generateVSCodeConfig,
    GenerateUrl.generateKiroConfig, GenerateUrl.generateClaudeDesktopConfig.
  rewrite !generateIDEConfigs_shape. cbn.
  rewrite map_fmap_singleton.
  repeat split; apply Hdoc.
Qed.

(** C9.  [getIDEConfigPath] returns a path for every string: the fixed path
    of each of the three targets, and "mcp.json" for any other string. *)
Theorem getIDEConfigPath_total (ide : string) :
  GenerateUrl.getIDEConfigPath "vscode" = ".vscode/mcp.json"
  /\ GenerateUrl.getIDEConfigPath "kiro" = ".kiro/settings/mcp.json"
  /\ GenerateUrl.getIDEConfigPath "claudeDesktop" =
       "~/Library/Application Support/Claude/claude_desktop_config.json"
  /\ (ide <> "vscode" -> ide <> "kiro" -> ide <> "claudeDesktop" ->
      GenerateUrl.getIDEConfigPath ide = "mcp.json")
  /\ exists path : string, GenerateUrl.getIDEConfigPath ide = path.
Proof.
  repeat split; [|by eexists].
  intros Hv Hk Hc. unfold GenerateUrl.getIDEConfigPath.
  by rewrite (proj2 (String.eqb_neq _ _) Hv), (proj2 (String.eqb_neq _ _) Hk),
    (proj2 (String.eqb_neq _ _) Hc).
Qed.

Lemma getIDEConfigPath_total_witness :
  GenerateUrl.getIDEConfigPath "cursor" = "mcp.json".
Proof.
  apply (proj1 (proj2 (proj2 (proj2 (getIDEConfigPath_total "cursor")))));
    discriminate.
Defined.

End Documents.

(** ** The manifest *)

Section ManifestInvariant.

Import Manifest.

(** C8.  Every one of the eleven allowed tools is qualified under a toolkit
    of the manifest, and under one only; three of them under "gmail" and two
    under each of "googlesheets", "googledrive", "outlook" and "xero". *)
Theorem manifest_tools_belong_to_toolkits :
  length Config.BILLING_TOOLKITS = 5
  /\ length Config.BILLING_ALLOWED_TOOLS = 11
  /\ Forall (fun tool => exists toolkit, toolkits_of tool = [toolkit])
       Config.BILLING_ALLOWED_TOOLS
  /\ map (fun toolkit => (toolkit, length (tools_of toolkit)))
       (map ToolkitConfig.toolkit Config.BILLING_TOOLKITS) =
     [ ("gmail", 3); ("googlesheets", 2); ("googledrive", 2);
       ("outlook", 2); ("xero", 2) ]
  /\ tools_of "gmail" =
       [ "GMAIL_FETCH_EMAILS"; "GMAIL_GET_ATTACHMENT"; "GMAIL_SEND_EMAIL" ]
  /\ tools_of "googlesheets" =
       [ "GOOGLESHEETS_BATCH_UPDATE"; "GOOGLESHEETS_CREATE_GOOGLE_SHEET1" ]
  /\ tools_of "googledrive" =
       [ "GOOGLEDRIVE_DOWNLOAD_FILE"; "GOOGLEDRIVE_UPLOAD_FILE" ]
  /\ tools_of "outlook" =
       [ "OUTLOOK_SEARCH_MESSAGES"; "OUTLOOK_GET_ATTACHMENT" ]
  /\ tools_of "xero" = [ "XERO_LIST_INVOICES"; "XERO_CREATE_INVOICE" ].
Proof.
  split; [reflexivity|]. split; [reflexivity|]. split.
  - unfold Config.BILLING_ALLOWED_TOOLS.
    repeat (apply Forall_cons; split; [eexists; vm_compute; reflexivity|]).
    apply Forall_nil_2.
  - repeat split.
Qed.

End ManifestInvariant.

(** ** The two operations end to end, on a platform that grants *)

Section EndToEnd.

Import Sdk Scenario.

Example setup_end_to_end :
  Setup.setupFromEnv Stub.granting {| Setup.COMPOSIO_API_KEY := Some "k1" |}
    None =
    (Eff.Return
       {| SetupResult.serverId := "srv-1";
          SetupResult.serverName := "billing-invoice-automation";
          SetupResult.toolkits :=
            [ "gmail"; "googlesheets"; "googledrive"; "outlook"; "xero" ];
          SetupResult.allowedTools := Config.BILLING_ALLOWED_TOOLS |},
     [ NewComposio {| apiKey := "k1"; disableVersionCheck := true |};
       McpCreate {| apiKey := "k1"; disableVersionCheck := true |}
         "billing-invoice-automation" setup_options ]).
Proof. reflexivity. Qed.

Example generate_end_to_end :
  Eff.completion
    (GenerateUrl.generateUrlWithConfigs Stub.granting
       {| GenerateUrlConfig.composioApiKey := "k1";
          GenerateUrlConfig.serverId := "srv-1";
          GenerateUrlConfig.userId := "u@example.com" |} None) =
    Eff.Return
      ({| GeneratedUrl.url := "https://host/v3/mcp/srv-1?user_id=u@example.com";
          GeneratedUrl.headers := {[ "x-api-key" := "k1" ]} |},
       GenerateUrl.generateIDEConfigs
         {| GeneratedUrl.url :=
              "https://host/v3/mcp/srv-1?user_id=u@example.com";
            GeneratedUrl.headers := {[ "x-api-key" := "k1" ]} |}
         (Some "billing-agent"))
  /\ IDEConfig.vscode
       (GenerateUrl.generateIDEConfigs
          {| GeneratedUrl.url :=
               "https://host/v3/mcp/srv-1?user_id=u@example.com";
             GeneratedUrl.headers := {[ "x-api-key" := "k1" ]} |}
          None) =
     {| VSCodeMCPConfig.mcpServers :=
          {[ "billing-agent" :=
               {| VSCodeServer.type := "http";
                  VSCodeServer.url :=
                    "https://host/v3/mcp/srv-1?user_id=u@example.com";
                  VSCodeServer.headers := {[ "x-api-key" := "k1" ]} |} ]} |}.
Proof. split; reflexivity. Qed.

Example trim_examples :
  Js.trim "  k1  " = "k1" /\ Js.trim "a b" = "a b" /\ Js.trim "   " = ""
  /\ Js.includes "Request failed with status code 401" "401" = true
  /\ Js.includes "invalid key" "Invalid" = false.
Proof. repeat split. Qed.

End EndToEnd.

(** * Further properties of the sources *)

(** ** Reading the credential: [initializeComposioClient] and [getApiKey] *)

Section Credential.

Import Sdk Scenario.

(** X1.  [initializeComposioClient] never reaches the platform, and whatever
    makes it fail, a missing credential or a constructor that throws, it
    throws a [ComposioApiKeyError]. *)
Theorem initializeComposioClient_only_credential_errors (sdk : Sdk.t)
    (env : Setup.Env) :
  Eff.network_calls (Setup.initializeComposioClient sdk env) = []
  /\ (forall error : Thrown,
        Eff.completion (Setup.initializeComposioClient sdk env) =
          Eff.Throw error ->
        exists text : string, error = ComposioApiKeyError text).
Proof.
  unfold Setup.initializeComposioClient, Eff.newComposio.
  destruct (Setup.COMPOSIO_API_KEY env) as [key|]; [|split; [done|]].
  - destruct (negb (Js.truthy key)); [split; [done|]|].
    { intros error [= <-]. by eexists. }
    destruct (String.eqb (Js.trim key) ""); [split; [done|]|].
    { intros error [= <-]. by eexists. }
    destruct (construct sdk _); (split; [done|]).
    + intros error' [= <-]. by eexists.
    + discriminate.
  - intros error [= <-]. by eexists.
Qed.

Lemma initializeComposioClient_only_credential_errors_witness :
  exists text : string,
    NonError "boom" <> ComposioApiKeyError text
    /\ Eff.completion
         (Setup.initializeComposioClient
            (Stub.unconstructible (NonError "boom"))
            {| Setup.COMPOSIO_API_KEY := Some "k1" |}) =
       Eff.Throw (ComposioApiKeyError text).
Proof.
  destruct (initializeComposioClient_only_credential_errors
              (Stub.unconstructible (NonError "boom"))
              {| Setup.COMPOSIO_API_KEY := Some "k1" |}) as [_ Honly].
  destruct (Honly (ComposioApiKeyError
                     "Failed to initialize Composio client: Unknown error")
              eq_refl) as [text Htext].
  exists text. split; [discriminate|]. rewrite <- Htext. reflexivity.
Defined.

(** X2.  The two messages of a missing credential.  A variable that is not
    set or is the empty string is reported as required; one that is not
    empty but trims to the empty string is reported as empty.  Neither case
    constructs a client. *)
Theorem initializeComposioClient_missing_credential (sdk : Sdk.t)
    (env : Setup.Env) :
  (Setup.COMPOSIO_API_KEY env = None \/ Setup.COMPOSIO_API_KEY env = Some "" ->
   Setup.initializeComposioClient sdk env =
     (Eff.Throw
        (ComposioApiKeyError
           "COMPOSIO_API_KEY environment variable is required. Please set it before running the setup command."),
      []))
  /\ (forall key : string,
        Setup.COMPOSIO_API_KEY env = Some key ->
        key <> "" -> Js.trim key = "" ->
        Setup.initializeComposioClient sdk env =
          (Eff.Throw
             (ComposioApiKeyError
                "COMPOSIO_API_KEY environment variable cannot be empty."),
           [])).
Proof.
  unfold Setup.initializeComposioClient. split.
  - by intros [-> | ->].
  - intros key -> Hkey Htrim. unfold Js.truthy.
    rewrite (proj2 (String.eqb_neq key "") Hkey), Htrim. reflexivity.
Qed.

Lemma initializeComposioClient_missing_credential_witness :
  Setup.initializeComposioClient Stub.granting
    {| Setup.COMPOSIO_API_KEY := None |} =
    (Eff.Throw
       (ComposioApiKeyError
          "COMPOSIO_API_KEY environment variable is required. Please set it before running the setup command."),
     [])
  /\ Setup.initializeComposioClient Stub.granting
       {| Setup.COMPOSIO_API_KEY := Some "  " |} =
     (Eff.Throw
        (ComposioApiKeyError
           "COMPOSIO_API_KEY environment variable cannot be empty."),
      []).
Proof.
  split.
  - destruct (initializeComposioClient_missing_credential Stub.granting
                {| Setup.COMPOSIO_API_KEY := None |}) as [Hrequired _].
    apply Hrequired. left. reflexivity.
  - destruct (initializeComposioClient_missing_credential Stub.granting
                {| Setup.COMPOSIO_API_KEY := Some "  " |}) as [_ Hempty].
    apply (Hempty "  "); [reflexivity | discriminate | reflexivity].
Defined.

(** X3.  A constructor that throws.  With the same credential,
    [initializeComposioClient] turns the failure into a
    [ComposioApiKeyError] that quotes its message and drops the value
    itself, while [setup] lets the value through as it is, without
    classifying it; neither goes on to the platform. *)
Theorem constructor_failure_wrapped_or_rethrown (sdk : Sdk.t) (key : string)
    (serverName : string) (error : Thrown) :
  Js.trim key <> "" ->
  construct sdk {| apiKey := key; disableVersionCheck := true |} = Some error ->
  Setup.initializeComposioClient sdk {| Setup.COMPOSIO_API_KEY := Some key |} =
    (Eff.Throw
       (ComposioApiKeyError
          ("Failed to initialize Composio client: " +:+
           (if instanceofError error then message error else "Unknown error"))),
     [ NewComposio {| apiKey := key; disableVersionCheck := true |} ])
  /\ Setup.setup sdk
       {| SetupConfig.composioApiKey := key;
          SetupConfig.serverName := serverName |} =
     (Eff.Throw error,
      [ NewComposio {| apiKey := key; disableVersionCheck := true |} ]).
Proof.
  intros Htrim Hnew. split.
  - unfold Setup.initializeComposioClient, Eff.newComposio. cbn.
    assert (Hkey : key <> "") by (intros ->; by apply Htrim).
    unfold Js.truthy.
    rewrite (proj2 (String.eqb_neq key "") Hkey),
      (proj2 (String.eqb_neq _ "") Htrim). cbn.
    by rewrite Hnew.
  - by apply setup_construct_throws.
Qed.

Lemma constructor_failure_wrapped_or_rethrown_witness :
  Setup.initializeComposioClient
    (Stub.unconstructible (ForeignError "401 bad key"))
    {| Setup.COMPOSIO_API_KEY := Some "k1" |} =
    (Eff.Throw
       (ComposioApiKeyError
          "Failed to initialize Composio client: 401 bad key"),
     [ NewComposio {| apiKey := "k1"; disableVersionCheck := true |} ])
  /\ Setup.setup (Stub.unconstructible (ForeignError "401 bad key"))
       {| SetupConfig.composioApiKey := "k1";
          SetupConfig.serverName := "billing" |} =
     (Eff.Throw (ForeignError "401 bad key"),
      [ NewComposio {| apiKey := "k1"; disableVersionCheck := true |} ]).
Proof.
  apply (constructor_failure_wrapped_or_rethrown
           (Stub.unconstructible (ForeignError "401 bad key")) "k1" "billing"
           (ForeignError "401 bad key")).
  - vm_compute. discriminate.
  - reflexivity.
Defined.

Lemma getApiKey_return_inv (env : Setup.Env) (key : string) :
  Eff.completion (Setup.getApiKey env) = Eff.Return key ->
  Setup.COMPOSIO_API_KEY env = Some key /\ Js.trim key <> "".
Proof.
  unfold Setup.getApiKey.
  destruct (Setup.COMPOSIO_API_KEY env) as [value|]; [|discriminate].
  destruct (Js.missing value) eqn:Hmissing; [discriminate|].
  apply missing_false_iff in Hmissing. by intros [= ->].
Qed.

(** X4.  [getApiKey] returns the value of the variable, as it is, exactly when
    that value has a character that is not white space; it asks nothing of
    the SDK. *)
Theorem getApiKey_returns_iff (env : Setup.Env) (key : string) :
  (Eff.completion (Setup.getApiKey env) = Eff.Return key <->
   Setup.COMPOSIO_API_KEY env = Some key /\ Js.trim key <> "")
  /\ Eff.requests (Setup.getApiKey env) = [].
Proof.
  unfold Setup.getApiKey.
  destruct (Setup.COMPOSIO_API_KEY env) as [value|].
  - destruct (Js.missing value) eqn:Hmissing.
    + split; [|reflexivity]. split; [discriminate|].
      intros [[= ->] Htrim]. by apply missing_false_iff in Htrim; congruence.
    + split; [|reflexivity]. apply missing_false_iff in Hmissing. split.
      * by intros [= ->].
      * by intros [[= ->] _].
  - split; [|reflexivity]. split; [discriminate | by intros [? _]].
Qed.

Lemma getApiKey_returns_iff_witness :
  Eff.completion
    (Setup.getApiKey {| Setup.COMPOSIO_API_KEY := Some " k1 " |}) =
    Eff.Return " k1 ".
Proof.
  apply (proj1 (getApiKey_returns_iff
                  {| Setup.COMPOSIO_API_KEY := Some " k1 " |} " k1 ")).
  split; [reflexivity | vm_compute; discriminate].
Defined.

End Credential.

(** ** [setup] and [setupFromEnv]: failures of the create call *)

Section SetupFailures.

Import Sdk Scenario.

Lemma setupFromEnv_present (sdk : Sdk.t) (env : Setup.Env) (key : string)
    (serverName : option string) :
  Setup.COMPOSIO_API_KEY env = Some key ->
  Js.trim key <> "" ->
  Setup.setupFromEnv sdk env serverName =
    Setup.setup sdk
      {| SetupConfig.composioApiKey := key;
         SetupConfig.serverName :=
           match serverName with
           | Some name =>
               if String.eqb name "" then "billing-invoice-automation" else name
           | None => "billing-invoice-automation"
           end |}.
Proof.
  intros Henv Htrim%missing_false_iff.
  unfold Setup.setupFromEnv, Setup.getApiKey. rewrite Henv, Htrim.
  assert (Hname :
    Js.or_else_opt serverName (MCPServerConfig.name Config.BILLING_MCP_CONFIG) =
    match serverName with
    | Some name =>
        if String.eqb name "" then "billing-invoice-automation" else name
    | None => "billing-invoice-automation"
    end).
  { destruct serverName as [name|]; [|reflexivity].
    cbn. unfold Js.or_else, Js.truthy. by destruct (String.eqb name ""). }
  rewrite Hname. unfold Eff.ret, Eff.bind.
  by destruct (Setup.setup sdk _) as [completion requests].
Qed.

(** X5.  With a credential in the environment, [setupFromEnv] is [setup] on
    that credential, as it is, and on the name given, or the default name
    when none is given or the one given is empty. *)
Theorem setupFromEnv_is_setup (sdk : Sdk.t) (env : Setup.Env) (key : string)
    (serverName : option string) :
  Setup.COMPOSIO_API_KEY env = Some key ->
  Js.trim key <> "" ->
  Setup.setupFromEnv sdk env serverName =
    Setup.setup sdk
      {| SetupConfig.composioApiKey := key;
         SetupConfig.serverName :=
           match serverName with
           | Some name =>
               if String.eqb name "" then "billing-invoice-automation" else name
           | None => "billing-invoice-automation"
           end |}.
Proof.
  intros Henv Htrim%missing_false_iff.
  unfold Setup.setupFromEnv, Setup.getApiKey. rewrite Henv, Htrim.
  assert (Hname :
    Js.or_else_opt serverName (MCPServerConfig.name Config.BILLING_MCP_CONFIG) =
    match serverName with
    | Some name =>
        if String.eqb name "" then "billing-invoice-automation" else name
    | None => "billing-invoice-automation"
    end).
  { destruct serverName as [name|]; [|reflexivity].
    cbn. unfold Js.or_else, Js.truthy. by destruct (String.eqb name ""). }
  rewrite Hname. unfold Eff.ret, Eff.bind.
  by destruct (Setup.setup sdk _) as [completion requests].
Qed.

Lemma setupFromEnv_is_setup_witness :
  Setup.setupFromEnv Stub.granting {| Setup.COMPOSIO_API_KEY := Some " k1 " |}
    (Some "") =
  Setup.setup Stub.granting
    {| SetupConfig.composioApiKey := " k1 ";
       SetupConfig.serverName := "billing-invoice-automation" |}.
Proof.
  apply (setupFromEnv_is_setup Stub.granting
           {| Setup.COMPOSIO_API_KEY := Some " k1 " |} " k1 " (Some "")).
  - reflexivity.
  - vm_compute. discriminate.
Defined.

Lemma setup_rejected_cases (sdk : Sdk.t) (config : SetupConfig.t)
    (error : Thrown) :
  construct sdk (setup_client config) = None ->
  create_outcome sdk config = inl error ->
  exists thrown : Thrown,
    Setup.setup sdk config =
      (Eff.Throw thrown,
       [ NewComposio (setup_client config);
         McpCreate (setup_client config) (setup_name config) setup_options ])
    /\ (thrown = ComposioApiKeyError "Invalid Composio API key"
        \/ exists text : string, thrown = MCPServerError text (Some error)).
Proof.
  intros Hnew Hcreate. rewrite (setup_rejected sdk config error Hnew Hcreate).
  cbv zeta. eexists. split; [reflexivity|].
  destruct (Js.includes _ "already exists"); [right; by eexists|].
  destruct (_ || _ || _); [by left | right; by eexists].
Qed.

(** X6.  A create call that fails is never let through as it is: [setup]
    throws either the [ComposioApiKeyError] "Invalid Composio API key",
    which does not keep the failure, or an [MCPServerError] whose cause
    is the failure.  The create call has been the only request to the
    platform. *)
Theorem setup_create_failure_classified (sdk : Sdk.t) (config : SetupConfig.t)
    (error : Thrown) :
  construct sdk (setup_client config) = None ->
  create_outcome sdk config = inl error ->
  exists thrown : Thrown,
    Setup.setup sdk config =
      (Eff.Throw thrown,
       [ NewComposio (setup_client config);
         McpCreate (setup_client config) (setup_name config) setup_options ])
    /\ (thrown = ComposioApiKeyError "Invalid Composio API key"
        \/ exists text : string, thrown = MCPServerError text (Some error)).
Proof.
  intros Hnew Hcreate. rewrite (setup_rejected sdk config error Hnew Hcreate).
  cbv zeta. eexists. split; [reflexivity|].
  destruct (Js.includes _ "already exists"); [right; by eexists|].
  destruct (_ || _ || _); [by left | right; by eexists].
Qed.

Lemma setup_create_failure_classified_witness :
  exists thrown : Thrown,
    Setup.setup (Stub.failing (NonError "timeout"))
      {| SetupConfig.composioApiKey := "k1";
         SetupConfig.serverName := "billing" |} =
      (Eff.Throw thrown,
       [ NewComposio {| apiKey := "k1"; disableVersionCheck := true |};
         McpCreate {| apiKey := "k1"; disableVersionCheck := true |}
           "billing" setup_options ])
    /\ (thrown = ComposioApiKeyError "Invalid Composio API key"
        \/ exists text : string,
             thrown = MCPServerError text (Some (NonError "timeout"))).
Proof.
  exact (setup_create_failure_classified (Stub.failing (NonError "timeout"))
           {| SetupConfig.composioApiKey := "k1";
              SetupConfig.serverName := "billing" |}
           (NonError "timeout") eq_refl eq_refl).
Defined.

(** X7.  When the create call fails with an [Error], [setup] throws the
    credential error exactly when the message does not contain
    "already exists" and contains "Invalid", "unauthorized" or "401", these
    being compared as written, capitals included. *)
Theorem setup_credential_error_iff (sdk : Sdk.t) (config : SetupConfig.t)
    (error : Thrown) :
  construct sdk (setup_client config) = None ->
  create_outcome sdk config = inl error ->
  instanceofError error = true ->
  (Eff.completion (Setup.setup sdk config) =
     Eff.Throw (ComposioApiKeyError "Invalid Composio API key") <->
   Js.includes (message error) "already exists" = false
   /\ (Js.includes (message error) "Invalid" = true
       \/ Js.includes (message error) "unauthorized" = true
       \/ Js.includes (message error) "401" = true)).
Proof.
  intros Hnew Hcreate Herr.
  rewrite (setup_rejected sdk config error Hnew Hcreate).
  cbv zeta. rewrite Herr. cbn [Eff.completion fst].
  destruct (Js.includes _ "already exists").
  - split; [discriminate | by intros [? _]].
  - destruct (Js.includes _ "Invalid"), (Js.includes _ "unauthorized"),
      (Js.includes _ "401"); cbn; split;
      try discriminate; try (intros _; split; [done | tauto]); try done.
    intros [_ [? | [? | ?]]]; discriminate.
Qed.

Lemma setup_credential_error_iff_witness :
  Eff.completion
    (Setup.setup (Stub.failing (ForeignError "Unauthorized: invalid api key"))
       {| SetupConfig.composioApiKey := "k1";
          SetupConfig.serverName := "billing" |}) <>
    Eff.Throw (ComposioApiKeyError "Invalid Composio API key").
Proof.
  intros Hthrown.
  apply (setup_credential_error_iff
           (Stub.failing (ForeignError "Unauthorized: invalid api key"))
           {| SetupConfig.composioApiKey := "k1";
              SetupConfig.serverName := "billing" |}
           (ForeignError "Unauthorized: invalid api key")
           eq_refl eq_refl eq_refl) in Hthrown.
  destruct Hthrown as [_ [H | [H | H]]]; vm_compute in H; discriminate.
Defined.

(** X8.  A failure of the create call that carries none of the four markers,
    and any thrown value that is not an [Error], whatever it holds, gives
    the [MCPServerError] "Failed to create MCP server: ..." with the
    message, or "Unknown error" for a value that is not an [Error]. *)
Theorem setup_generic_failure (sdk : Sdk.t) (config : SetupConfig.t)
    (error : Thrown) :
  construct sdk (setup_client config) = None ->
  create_outcome sdk config = inl error ->
  (instanceofError error = true ->
   Js.includes (message error) "already exists" = false ->
   Js.includes (message error) "Invalid" = false ->
   Js.includes (message error) "unauthorized" = false ->
   Js.includes (message error) "401" = false ->
   Eff.completion (Setup.setup sdk config) =
     Eff.Throw
       (MCPServerError ("Failed to create MCP server: " +:+ message error)
          (Some error)))
  /\ (instanceofError error = false ->
      Eff.completion (Setup.setup sdk config) =
        Eff.Throw
          (MCPServerError "Failed to create MCP server: Unknown error"
             (Some error))).
Proof.
  intros Hnew Hcreate.
  rewrite (setup_rejected sdk config error Hnew Hcreate). cbv zeta. split.
  - intros -> -> -> -> ->. reflexivity.
  - intros ->. reflexivity.
Qed.

Lemma setup_generic_failure_witness :
  Eff.completion
    (Setup.setup (Stub.failing (ForeignError "socket hang up"))
       {| SetupConfig.composioApiKey := "k1";
          SetupConfig.serverName := "billing" |}) =
    Eff.Throw
      (MCPServerError "Failed to create MCP server: socket hang up"
         (Some (ForeignError "socket hang up")))
  /\ Eff.completion
       (Setup.setup (Stub.failing (NonError "401 already exists"))
          {| SetupConfig.composioApiKey := "k1";
             SetupConfig.serverName := "billing" |}) =
     Eff.Throw
       (MCPServerError "Failed to create MCP server: Unknown error"
          (Some (NonError "401 already exists"))).
Proof.
  split.
  - destruct (setup_generic_failure (Stub.failing (ForeignError "socket hang up"))
                {| SetupConfig.composioApiKey := "k1";
                   SetupConfig.serverName := "billing" |}
                (ForeignError "socket hang up") eq_refl eq_refl) as [Herror _].
    apply Herror; reflexivity.
  - destruct (setup_generic_failure
                (Stub.failing (NonError "401 already exists"))
                {| SetupConfig.composioApiKey := "k1";
                   SetupConfig.serverName := "billing" |}
                (NonError "401 already exists") eq_refl eq_refl) as [_ Hvalue].
    apply Hvalue; reflexivity.
Defined.

(** X9.  [setup] asks the platform for at most one thing, the creation of
    the server with the manifest, and asks it exactly when the client could
    be constructed; it returns exactly when, moreover, the platform has
    answered the create call. *)
Theorem setup_single_create_call (sdk : Sdk.t) (config : SetupConfig.t) :
  (construct sdk (setup_client config) = None <->
   Eff.network_calls (Setup.setup sdk config) =
     [ McpCreate (setup_client config) (setup_name config) setup_options ])
  /\ (construct sdk (setup_client config) <> None <->
      Eff.network_calls (Setup.setup sdk config) = [])
  /\ ((exists result, Eff.completion (Setup.setup sdk config) = Eff.Return result)
      <-> construct sdk (setup_client config) = None
          /\ exists server, create_outcome sdk config = inr server).
Proof.
  destruct (construct sdk (setup_client config)) as [error|] eqn:Hnew.
  - rewrite (setup_construct_throws sdk config error Hnew).
    split; [|split].
    + split; discriminate.
    + split; [reflexivity | discriminate].
    + split; [intros [result Hresult] | intros [Hnone _]]; discriminate.
  - unfold Eff.network_calls. rewrite (setup_requests sdk config Hnew).
    split; [|split].
    + split; reflexivity.
    + split; [intros Hne; by destruct Hne | discriminate].
    + split.
      * intros [result Hresult]. split; [reflexivity|].
        destruct (create_outcome sdk config) as [error|server] eqn:Hcreate;
          [|by exists server].
        by rewrite (setup_rejected sdk config error Hnew Hcreate) in Hresult.
      * intros [_ [server Hcreate]].
        rewrite (setup_created sdk config server Hnew Hcreate). by eexists.
Qed.

Lemma setup_single_create_call_witness :
  Eff.network_calls
    (Setup.setup Stub.granting
       {| SetupConfig.composioApiKey := "k1";
          SetupConfig.serverName := "billing" |}) =
    [ McpCreate {| apiKey := "k1"; disableVersionCheck := true |} "billing"
        setup_options ]
  /\ Eff.network_calls
       (Setup.setup (Stub.unconstructible (ForeignError "no key"))
          {| SetupConfig.composioApiKey := "k1";
             SetupConfig.serverName := "billing" |}) = [].
Proof.
  split.
  - apply (proj1 (proj1 (setup_single_create_call Stub.granting
                           {| SetupConfig.composioApiKey := "k1";
                              SetupConfig.serverName := "billing" |}))).
    reflexivity.
  - apply (proj1 (proj1 (proj2 (setup_single_create_call
                                  (Stub.unconstructible (ForeignError "no key"))
                                  {| SetupConfig.composioApiKey := "k1";
                                     SetupConfig.serverName := "billing" |})))).
    discriminate.
Defined.

End SetupFailures.

(** ** [generateUserUrl]: what it asks, returns and throws *)

Section GenerateUserUrlOutcomes.

Import Sdk Scenario.

Lemma fields_present_dec (config : GenerateUrlConfig.t) :
  fields_present config
  \/ Js.trim (GenerateUrlConfig.composioApiKey config) = ""
  \/ (Js.trim (GenerateUrlConfig.composioApiKey config) <> ""
      /\ Js.trim (GenerateUrlConfig.serverId config) = "")
  \/ (Js.trim (GenerateUrlConfig.composioApiKey config) <> ""
      /\ Js.trim (GenerateUrlConfig.serverId config) <> ""
      /\ Js.trim (GenerateUrlConfig.userId config) = "").
Proof.
  unfold fields_present.
  destruct (String.eqb_spec (Js.trim (GenerateUrlConfig.composioApiKey config)) "");
    [tauto|].
  destruct (String.eqb_spec (Js.trim (GenerateUrlConfig.serverId config)) "");
    [tauto|].
  destruct (String.eqb_spec (Js.trim (GenerateUrlConfig.userId config)) "");
    tauto.
Qed.

(** X10.  [generateUserUrl] asks something of the SDK exactly when its three
    fields are present: a blank field stops it before the client is
    constructed, and nothing else does. *)
Theorem generateUserUrl_asks_iff_fields_present (sdk : Sdk.t)
    (config : GenerateUrlConfig.t) :
  Eff.requests (GenerateUrl.generateUserUrl sdk config) = [] <->
  ~ fields_present config.
Proof.
  destruct (fields_present_dec config)
    as [Hpresent | [Hkey | [[Hkey Hid] | (Hkey & Hid & Huser)]]].
  - rewrite (generateUserUrl_validated sdk config Hpresent).
    split; [|done]. by destruct (construct sdk (generate_client config)).
  - rewrite (generateUserUrl_no_key sdk config Hkey).
    split; [|done]. intros _ (? & _). done.
  - rewrite (generateUserUrl_no_serverId sdk config Hkey Hid).
    split; [|done]. intros _ (_ & ? & _). done.
  - rewrite (generateUserUrl_no_userId sdk config Hkey Hid Huser).
    split; [|done]. intros _ (_ & _ & ?). done.
Qed.

Lemma generateUserUrl_asks_iff_fields_present_witness :
  Eff.requests
    (GenerateUrl.generateUserUrl Stub.granting
       {| GenerateUrlConfig.composioApiKey := "k1";
          GenerateUrlConfig.serverId := "srv-1";
          GenerateUrlConfig.userId := "   " |}) = [].
Proof.
  apply (proj2 (generateUserUrl_asks_iff_fields_present Stub.granting
                  {| GenerateUrlConfig.composioApiKey := "k1";
                     GenerateUrlConfig.serverId := "srv-1";
                     GenerateUrlConfig.userId := "   " |})).
  intros (_ & _ & Huser). vm_compute in Huser. by apply Huser.
Defined.

(** X11.  Everything [generateUserUrl] can throw.  A validation error has no
    cause and no request behind it; a value thrown by the constructor comes
    out as it is; a failure of the generate call comes out as a
    [UrlGenerationError] that quotes its message, or "Unknown error" when
    it is no [Error], and keeps it as cause. *)
Theorem generateUserUrl_throws (sdk : Sdk.t) (config : GenerateUrlConfig.t)
    (thrown : Thrown) :
  Eff.completion (GenerateUrl.generateUserUrl sdk config) = Eff.Throw thrown ->
  (~ fields_present config
   /\ Eff.requests (GenerateUrl.generateUserUrl sdk config) = []
   /\ exists text : string, thrown = UrlGenerationError text None)
  \/ (fields_present config
      /\ construct sdk (generate_client config) = Some thrown)
  \/ (fields_present config
      /\ construct sdk (generate_client config) = None
      /\ exists error : Thrown,
           generate_outcome sdk config = inl error
           /\ thrown =
                UrlGenerationError
                  ("Failed to generate MCP URL: " +:+
                   (if instanceofError error then message error
                    else "Unknown error"))
                  (Some error)).
Proof.
  destruct (fields_present_dec config)
    as [Hpresent | [Hkey | [[Hkey Hid] | (Hkey & Hid & Huser)]]].
  - rewrite (generateUserUrl_validated sdk config Hpresent).
    destruct (construct sdk (generate_client config)) as [error|] eqn:Hnew.
    + intros [= <-]. right. left. split; [exact Hpresent | reflexivity].
    + destruct (generate_outcome sdk config) as [error|instance] eqn:Hgen;
        [|discriminate].
      intros [= <-]. right. right.
      split; [exact Hpresent|]. split; [reflexivity|]. by exists error.
  - rewrite (generateUserUrl_no_key sdk config Hkey). intros [= <-]. left.
    split; [intros (? & _); done|]. split; [done | by eexists].
  - rewrite (generateUserUrl_no_serverId sdk config Hkey Hid). intros [= <-].
    left. split; [intros (_ & ? & _); done|]. split; [done | by eexists].
  - rewrite (generateUserUrl_no_userId sdk config Hkey Hid Huser).
    intros [= <-]. left.
    split; [intros (_ & _ & ?); done|]. split; [done | by eexists].
Qed.

Lemma generateUserUrl_throws_witness :
  Eff.completion
    (GenerateUrl.generateUserUrl (Stub.failing (NonError "404"))
       {| GenerateUrlConfig.composioApiKey := "k1";
          GenerateUrlConfig.serverId := "srv-1";
          GenerateUrlConfig.userId := "u@example.com" |}) =
    Eff.Throw
      (UrlGenerationError "Failed to generate MCP URL: Unknown error"
         (Some (NonError "404")))
  /\ generate_outcome (Stub.failing (NonError "404"))
       {| GenerateUrlConfig.composioApiKey := "k1";
          GenerateUrlConfig.serverId := "srv-1";
          GenerateUrlConfig.userId := "u@example.com" |} =
     inl (NonError "404").
Proof.
  split; [reflexivity|].
  destruct (generateUserUrl_throws (Stub.failing (NonError "404"))
              {| GenerateUrlConfig.composioApiKey := "k1";
                 GenerateUrlConfig.serverId := "srv-1";
                 GenerateUrlConfig.userId := "u@example.com" |}
              (UrlGenerationError "Failed to generate MCP URL: Unknown error"
                 (Some (NonError "404")))
              eq_refl)
    as [(_ & _ & text & Htext) | [[_ Hnew] | (_ & _ & error & Hgen & Hthrown)]].
  - discriminate.
  - discriminate.
  - injection Hthrown as _ <-. exact Hgen.
Defined.

Lemma generateUserUrl_return_inv (sdk : Sdk.t) (config : GenerateUrlConfig.t)
    (endpoint : GeneratedUrl.t) :
  Eff.completion (GenerateUrl.generateUserUrl sdk config) =
    Eff.Return endpoint ->
  fields_present config
  /\ GeneratedUrl.headers endpoint =
       {[ "x-api-key" := GenerateUrlConfig.composioApiKey config ]}.
Proof.
  destruct (fields_present_dec config)
    as [Hpresent | [Hkey | [[Hkey Hid] | (Hkey & Hid & Huser)]]].
  - rewrite (generateUserUrl_validated sdk config Hpresent).
    destruct (construct sdk (generate_client config)); [discriminate|].
    destruct (generate_outcome sdk config) as [error|instance];
      [discriminate|].
    by intros [= <-].
  - by rewrite (generateUserUrl_no_key sdk config Hkey).
  - by rewrite (generateUserUrl_no_serverId sdk config Hkey Hid).
  - by rewrite (generateUserUrl_no_userId sdk config Hkey Hid Huser).
Qed.

(** X12.  When [generateUserUrl] returns, the url is the one the platform
    gave for the user id and the server id of the request, in that order of
    arguments, and the headers hold one entry: "x-api-key", with the
    credential as it was passed, not trimmed. *)
Theorem generateUserUrl_returns (sdk : Sdk.t) (config : GenerateUrlConfig.t)
    (endpoint : GeneratedUrl.t) :
  Eff.completion (GenerateUrl.generateUserUrl sdk config) =
    Eff.Return endpoint ->
  fields_present config
  /\ GeneratedUrl.headers endpoint =
       {[ "x-api-key" := GenerateUrlConfig.composioApiKey config ]}
  /\ (exists instance : ComposioMCPInstance.t,
        mcp_generate sdk (generate_client config)
          (GenerateUrlConfig.userId config) (GenerateUrlConfig.serverId config)
          {| generate_manuallyManageConnections := false |} = inr instance
        /\ GeneratedUrl.url endpoint = ComposioMCPInstance.url instance)
  /\ Eff.network_calls (GenerateUrl.generateUserUrl sdk config) =
       [ McpGenerate (generate_client config)
           (GenerateUrlConfig.userId config) (GenerateUrlConfig.serverId config)
           {| generate_manuallyManageConnections := false |} ].
Proof.
  destruct (fields_present_dec config)
    as [Hpresent | [Hkey | [[Hkey Hid] | (Hkey & Hid & Huser)]]].
  - unfold Eff.network_calls.
    rewrite (generateUserUrl_validated sdk config Hpresent).
    destruct (construct sdk (generate_client config)); [discriminate|].
    fold (generate_outcome sdk config).
    destruct (generate_outcome sdk config) as [error|instance];
      [discriminate|].
    intros [= <-]. split; [exact Hpresent|]. split; [reflexivity|].
    split; [by exists instance | reflexivity].
  - by rewrite (generateUserUrl_no_key sdk config Hkey).
  - by rewrite (generateUserUrl_no_serverId sdk config Hkey Hid).
  - by rewrite (generateUserUrl_no_userId sdk config Hkey Hid Huser).
Qed.

Lemma generateUserUrl_returns_witness :
  GeneratedUrl.headers
    {| GeneratedUrl.url := "https://host/v3/mcp/srv-1?user_id=u@example.com";
       GeneratedUrl.headers := {[ "x-api-key" := " k1 " ]} |} =
    {[ "x-api-key" := " k1 " ]}
  /\ Eff.completion
       (GenerateUrl.generateUserUrl Stub.granting
          {| GenerateUrlConfig.composioApiKey := " k1 ";
             GenerateUrlConfig.serverId := "srv-1";
             GenerateUrlConfig.userId := "u@example.com" |}) =
     Eff.Return
       {| GeneratedUrl.url := "https://host/v3/mcp/srv-1?user_id=u@example.com";
          GeneratedUrl.headers := {[ "x-api-key" := " k1 " ]} |}.
Proof.
  split; [|reflexivity].
  apply (generateUserUrl_returns Stub.granting
           {| GenerateUrlConfig.composioApiKey := " k1 ";
              GenerateUrlConfig.serverId := "srv-1";
              GenerateUrlConfig.userId := "u@example.com" |}
           {| GeneratedUrl.url :=
                "https://host/v3/mcp/srv-1?user_id=u@example.com";
              GeneratedUrl.headers := {[ "x-api-key" := " k1 " ]} |}).
  reflexivity.
Defined.

(** X13.  A credential that [getApiKey] has returned passes the first check
    of [generateUserUrl]: whatever the two identifiers, the run is not the
    one that stops on "Composio API key is required". *)
Theorem getApiKey_then_generateUserUrl (sdk : Sdk.t) (env : Setup.Env)
    (key serverId userId : string) :
  Eff.completion (Setup.getApiKey env) = Eff.Return key ->
  GenerateUrl.generateUserUrl sdk
    {| GenerateUrlConfig.composioApiKey := key;
       GenerateUrlConfig.serverId := serverId;
       GenerateUrlConfig.userId := userId |} <>
    (Eff.Throw (UrlGenerationError "Composio API key is required" None), []).
Proof.
  intros [_ Htrim]%getApiKey_return_inv.
  set (config := {| GenerateUrlConfig.composioApiKey := key |}).
  destruct (fields_present_dec config)
    as [Hpresent | [Hkey | [[Hkey Hid] | (Hkey & Hid & Huser)]]].
  - rewrite (generateUserUrl_validated sdk config Hpresent).
    by destruct (construct sdk (generate_client config)).
  - done.
  - by rewrite (generateUserUrl_no_serverId sdk config Hkey Hid).
  - by rewrite (generateUserUrl_no_userId sdk config Hkey Hid Huser).
Qed.

Lemma getApiKey_then_generateUserUrl_witness :
  GenerateUrl.generateUserUrl Stub.granting
    {| GenerateUrlConfig.composioApiKey := "k1";
       GenerateUrlConfig.serverId := "";
       GenerateUrlConfig.userId := "" |} <>
    (Eff.Throw (UrlGenerationError "Composio API key is required" None), []).
Proof.
  apply (getApiKey_then_generateUserUrl Stub.granting
           {| Setup.COMPOSIO_API_KEY := Some "k1" |} "k1" "" "").
  reflexivity.
Defined.

End GenerateUserUrlOutcomes.

(** ** [generateIDEConfigs] and [generateUrlWithConfigs] *)

Section DocumentsFurther.

Import Sdk Scenario.

Lemma apiKeyHeader_nonempty (headers : gmap string string) :
  GenerateUrl.apiKeyHeader headers <> "".
Proof.
  unfold GenerateUrl.apiKeyHeader, Js.or_else_opt, Js.or_else, Js.truthy.
  destruct (headers !! "x-api-key") as [value|]; [|discriminate].
  destruct (String.eqb_spec value ""); [discriminate | done].
Qed.

Lemma generateIDEConfigs_default (endpoint : GeneratedUrl.t)
    (serverLabel : option string) :
  GenerateUrl.generateIDEConfigs endpoint
    (Some (GenerateUrl.serverLabel_or_default serverLabel)) =
  GenerateUrl.generateIDEConfigs endpoint serverLabel.
Proof. by destruct serverLabel. Qed.

(** X14.  Every header of the endpoint other than "x-api-key" is in each of
    the three documents with its value, and a header the endpoint does not
    have is in none. *)
Theorem generateIDEConfigs_keeps_other_headers (endpoint : GeneratedUrl.t)
    (serverLabel : option string) (name : string) :
  name <> "x-api-key" ->
  let configs := GenerateUrl.generateIDEConfigs endpoint serverLabel in
  let label := GenerateUrl.serverLabel_or_default serverLabel in
  vscode_header (IDEConfig.vscode configs) label name =
    GeneratedUrl.headers endpoint !! name
  /\ vscode_header (IDEConfig.kiro configs) label name =
       GeneratedUrl.headers endpoint !! name
  /\ claude_header (IDEConfig.claudeDesktop configs) label name =
       GeneratedUrl.headers endpoint !! name.
Proof.
  intros Hname. cbv zeta. rewrite generateIDEConfigs_shape. cbv zeta.
  unfold vscode_header, claude_header. cbn.
  rewrite !lookup_singleton_eq. cbn.
  by rewrite !lookup_insert_ne.
Qed.

Lemma generateIDEConfigs_keeps_other_headers_witness :
  vscode_header
    (IDEConfig.vscode
       (GenerateUrl.generateIDEConfigs
          {| GeneratedUrl.url := "https://host/v3/mcp/srv-1";
             GeneratedUrl.headers :=
               <[ "accept" := "text/event-stream" ]> {[ "x-api-key" := "" ]} |}
          None))
    "billing-agent" "accept" = Some "text/event-stream".
Proof.
  assert (Hname : "accept" <> "x-api-key") by discriminate.
  destruct (generateIDEConfigs_keeps_other_headers
              {| GeneratedUrl.url := "https://host/v3/mcp/srv-1";
                 GeneratedUrl.headers :=
                   <[ "accept" := "text/event-stream" ]>
                     {[ "x-api-key" := "" ]} |}
              None "accept" Hname) as [Hvscode _].
  exact Hvscode.
Defined.

(** X15.  No document comes out without a key: in each of the three the
    header "x-api-key" is there and is not the empty string. *)
Theorem generateIDEConfigs_api_key_never_empty (endpoint : GeneratedUrl.t)
    (serverLabel : option string) :
  let configs := GenerateUrl.generateIDEConfigs endpoint serverLabel in
  let label := GenerateUrl.serverLabel_or_default serverLabel in
  exists value : string,
    value <> ""
    /\ vscode_api_key (IDEConfig.vscode configs) label = Some value
    /\ vscode_api_key (IDEConfig.kiro configs) label = Some value
    /\ claude_api_key (IDEConfig.claudeDesktop configs) label = Some value.
Proof.
  cbv zeta. exists (GenerateUrl.apiKeyHeader (GeneratedUrl.headers endpoint)).
  split; [apply apiKeyHeader_nonempty|].
  apply (api_key_of_documents endpoint serverLabel).
Qed.

(** X16.  The headers of a document are stable: generating again from an
    endpoint that carries them gives the same three documents. *)
Theorem generateIDEConfigs_headers_stable (endpoint : GeneratedUrl.t)
    (serverLabel : option string) :
  GenerateUrl.generateIDEConfigs
    {| GeneratedUrl.url := GeneratedUrl.url endpoint;
       GeneratedUrl.headers :=
         <[ "x-api-key" :=
              GenerateUrl.apiKeyHeader (GeneratedUrl.headers endpoint) ]>
           (GeneratedUrl.headers endpoint) |}
    serverLabel =
  GenerateUrl.generateIDEConfigs endpoint serverLabel.
Proof.
  rewrite !generateIDEConfigs_shape. cbn.
  assert (Hkey :
    GenerateUrl.apiKeyHeader
      (<[ "x-api-key" :=
            GenerateUrl.apiKeyHeader (GeneratedUrl.headers endpoint) ]>
         (GeneratedUrl.headers endpoint)) =
    GenerateUrl.apiKeyHeader (GeneratedUrl.headers endpoint)).
  { unfold GenerateUrl.apiKeyHeader at 1. rewrite lookup_insert_eq.
    apply or_else_nonempty, apiKeyHeader_nonempty. }
  by rewrite Hkey, insert_insert_eq.
Qed.

(** X17.  When [generateUrlWithConfigs] returns, the endpoint is the one
    [generateUserUrl] returns, the documents are those of that endpoint
    under the label, and the key in each of them is the credential of the
    request: the placeholder does not take its place. *)
Theorem generateUrlWithConfigs_returns (sdk : Sdk.t)
    (config : GenerateUrlConfig.t) (serverLabel : option string)
    (endpoint : GeneratedUrl.t) (configs : IDEConfig.t) :
  Eff.completion (GenerateUrl.generateUrlWithConfigs sdk config serverLabel) =
    Eff.Return (endpoint, configs) ->
  let label := GenerateUrl.serverLabel_or_default serverLabel in
  Eff.completion (GenerateUrl.generateUserUrl sdk config) = Eff.Return endpoint
  /\ configs = GenerateUrl.generateIDEConfigs endpoint serverLabel
  /\ vscode_api_key (IDEConfig.vscode configs) label =
       Some (GenerateUrlConfig.composioApiKey config)
  /\ vscode_api_key (IDEConfig.kiro configs) label =
       Some (GenerateUrlConfig.composioApiKey config)
  /\ claude_api_key (IDEConfig.claudeDesktop configs) label =
       Some (GenerateUrlConfig.composioApiKey config).
Proof.
  unfold GenerateUrl.generateUrlWithConfigs, Eff.bind, Eff.ret.
  destruct (GenerateUrl.generateUserUrl sdk config)
    as [[endpoint'|error] requests] eqn:Hrun; [|discriminate].
  rewrite generateIDEConfigs_default. intros [= <- <-]. cbv zeta.
  split; [reflexivity|]. split; [reflexivity|].
  assert (Hreturn :
    Eff.completion (GenerateUrl.generateUserUrl sdk config) =
    Eff.Return endpoint') by by rewrite Hrun.
  destruct (generateUserUrl_return_inv sdk config endpoint' Hreturn)
    as [Hpresent Hheaders].
  assert (Hkey :
    GenerateUrl.apiKeyHeader (GeneratedUrl.headers endpoint') =
    GenerateUrlConfig.composioApiKey config).
  { rewrite Hheaders. unfold GenerateUrl.apiKeyHeader.
    rewrite lookup_singleton_eq. apply or_else_nonempty.
    intros Hempty. destruct Hpresent as [Htrim _]. apply Htrim.
    by rewrite Hempty. }
  rewrite <- Hkey. apply (api_key_of_documents endpoint' serverLabel).
Qed.

Lemma generateUrlWithConfigs_returns_witness :
  vscode_api_key
    (IDEConfig.vscode
       (GenerateUrl.generateIDEConfigs
          {| GeneratedUrl.url :=
               "https://host/v3/mcp/srv-1?user_id=u@example.com";
             GeneratedUrl.headers := {[ "x-api-key" := "k1" ]} |}
          (Some "billing")))
    "billing" = Some "k1".
Proof.
  apply (generateUrlWithConfigs_returns Stub.granting
           {| GenerateUrlConfig.composioApiKey := "k1";
              GenerateUrlConfig.serverId := "srv-1";
              GenerateUrlConfig.userId := "u@example.com" |}
           (Some "billing")
           {| GeneratedUrl.url :=
                "https://host/v3/mcp/srv-1?user_id=u@example.com";
              GeneratedUrl.headers := {[ "x-api-key" := "k1" ]} |}
           (GenerateUrl.generateIDEConfigs
              {| GeneratedUrl.url :=
                   "https://host/v3/mcp/srv-1?user_id=u@example.com";
                 GeneratedUrl.headers := {[ "x-api-key" := "k1" ]} |}
              (Some "billing"))).
  reflexivity.
Defined.

(** X18.  [generateUrlWithConfigs] adds no request and no failure to
    [generateUserUrl]: the requests are the same, and it throws a value
    exactly when [generateUserUrl] throws that value. *)
Theorem generateUrlWithConfigs_fails_as_generateUserUrl (sdk : Sdk.t)
    (config : GenerateUrlConfig.t) (serverLabel : option string)
    (thrown : Thrown) :
  Eff.requests (GenerateUrl.generateUrlWithConfigs sdk config serverLabel) =
    Eff.requests (GenerateUrl.generateUserUrl sdk config)
  /\ (Eff.completion
        (GenerateUrl.generateUrlWithConfigs sdk config serverLabel) =
        Eff.Throw thrown <->
      Eff.completion (GenerateUrl.generateUserUrl sdk config) =
        Eff.Throw thrown).
Proof.
  unfold GenerateUrl.generateUrlWithConfigs, Eff.bind, Eff.ret.
  destruct (GenerateUrl.generateUserUrl sdk config)
    as [[endpoint|error] requests]; cbn.
  - rewrite app_nil_r. split; [reflexivity|]. split; discriminate.
  - split; [reflexivity|]. split; intros [= ->]; reflexivity.
Qed.

Lemma generateUrlWithConfigs_fails_as_generateUserUrl_witness :
  Eff.completion
    (GenerateUrl.generateUrlWithConfigs Stub.granting
       {| GenerateUrlConfig.composioApiKey := "k1";
          GenerateUrlConfig.serverId := " ";
          GenerateUrlConfig.userId := "u@example.com" |} None) =
    Eff.Throw (UrlGenerationError "Server ID is required" None).
Proof.
  apply (proj2 (proj2 (generateUrlWithConfigs_fails_as_generateUserUrl
                         Stub.granting
                         {| GenerateUrlConfig.composioApiKey := "k1";
                            GenerateUrlConfig.serverId := " ";
                            GenerateUrlConfig.userId := "u@example.com" |}
                         None
                         (UrlGenerationError "Server ID is required" None)))).
  reflexivity.
Defined.

(** X19.  The path of a recognised target is the path of no other argument:
    the three targets have three paths, and none of them is the path given
    for anything else. *)
Theorem getIDEConfigPath_target_path_is_its_own (target other : string) :
  In target [ "vscode"; "kiro"; "claudeDesktop" ] ->
  target <> other ->
  GenerateUrl.getIDEConfigPath target <> GenerateUrl.getIDEConfigPath other.
Proof.
  intros Htarget Hother. unfold GenerateUrl.getIDEConfigPath at 2.
  destruct (String.eqb_spec other "vscode") as [->|_];
    [|destruct (String.eqb_spec other "kiro") as [->|_];
      [|destruct (String.eqb_spec other "claudeDesktop") as [->|_]]];
    destruct Htarget as [<- | [<- | [<- | []]]]; cbn;
    first [discriminate | by destruct Hother].
Qed.

Lemma getIDEConfigPath_target_path_is_its_own_witness :
  GenerateUrl.getIDEConfigPath "vscode" <> GenerateUrl.getIDEConfigPath "VSCode"
  /\ GenerateUrl.getIDEConfigPath "kiro" <> GenerateUrl.getIDEConfigPath "vscode".
Proof.
  split.
  - apply (getIDEConfigPath_target_path_is_its_own "vscode" "VSCode");
      [left; reflexivity | discriminate].
  - apply (getIDEConfigPath_target_path_is_its_own "kiro" "vscode");
      [right; left; reflexivity | discriminate].
Defined.

End DocumentsFurther.

(** ** The [setup] command *)

Section SetupCommand.

Import Sdk Scenario Cli.

Lemma setupFromEnv_missing (sdk : Sdk.t) (env : Setup.Env)
    (serverName : option string) :
  (forall key, Setup.COMPOSIO_API_KEY env = Some key -> Js.trim key = "") ->
  Setup.setupFromEnv sdk env serverName =
    (Eff.Throw
       (ComposioApiKeyError
          "COMPOSIO_API_KEY environment variable is required."),
     []).
Proof.
  intros Hkey. unfold Setup.setupFromEnv, Setup.getApiKey.
  destruct (Setup.COMPOSIO_API_KEY env) as [key|]; [|reflexivity].
  specialize (Hkey key eq_refl). apply missing_true_iff in Hkey.
  by rewrite Hkey.
Qed.

(** X20.  The action calls [process.exit], with 1, exactly when
    [setupFromEnv] throws; it has then written the opening line and one line
    on the error stream.  Otherwise it writes on the output stream only.  It
    asks of the SDK what [setupFromEnv] asks. *)
Theorem setupAction_exit_code (sdk : Sdk.t) (env : Setup.Env)
    (options_name : string) :
  let run := setupAction sdk env options_name in
  let call := Setup.setupFromEnv sdk env (Some options_name) in
  ((exists thrown, Eff.completion call = Eff.Throw thrown) ->
   exit run = Some 1
   /\ exists text, outputs run = [ started; Error text ])
  /\ ((exists result, Eff.completion call = Eff.Return result) ->
      exit run = None
      /\ Forall (fun output => exists text, output = Log text) (outputs run))
  /\ requests run = Eff.requests call.
Proof.
  cbv zeta. unfold setupAction.
  destruct (Setup.setupFromEnv sdk env (Some options_name))
    as [[result|thrown] asked]; cbn [Eff.completion Eff.requests fst snd].
  - split; [intros [thrown Hthrown]; discriminate|]. split; [|reflexivity].
    intros _. split; [reflexivity|]. cbn [outputs].
    repeat (apply Forall_cons; split; [by eexists|]).
    apply Forall_app. split.
    + apply Forall_fmap, Forall_true. intros tool. by eexists.
    + repeat (apply Forall_cons; split; [by eexists|]). apply Forall_nil_2.
  - split; [|split; [intros [result Hresult]; discriminate | ]].
    + intros _. destruct thrown; cbn; (split; [reflexivity | by eexists]).
    + by destruct thrown.
Qed.

Lemma setupAction_exit_code_witness :
  exit (setupAction Stub.granting {| Setup.COMPOSIO_API_KEY := None |}
          "billing") = Some 1
  /\ exit (setupAction Stub.granting {| Setup.COMPOSIO_API_KEY := Some "k1" |}
             "billing") = None.
Proof.
  split.
  - destruct (setupAction_exit_code Stub.granting
                {| Setup.COMPOSIO_API_KEY := None |} "billing")
      as [Hthrows _].
    apply Hthrows. by eexists.
  - destruct (setupAction_exit_code Stub.granting
                {| Setup.COMPOSIO_API_KEY := Some "k1" |} "billing")
      as (_ & Hreturns & _).
    apply Hreturns. by eexists.
Defined.

(** X21.  Without a credential in the environment the action writes the
    opening line, then "API Key Error: COMPOSIO_API_KEY environment variable
    is required." on the error stream, and exits with 1 having asked nothing
    of the SDK. *)
Theorem setupAction_missing_credential (sdk : Sdk.t) (env : Setup.Env)
    (options_name : string) :
  (forall key, Setup.COMPOSIO_API_KEY env = Some key -> Js.trim key = "") ->
  setupAction sdk env options_name =
    {| outputs :=
         [ started;
           failure "API Key Error"
             "COMPOSIO_API_KEY environment variable is required." ];
       requests := [];
       exit := Some 1 |}.
Proof.
  intros Hmissing. unfold setupAction.
  by rewrite (setupFromEnv_missing sdk env (Some options_name) Hmissing).
Qed.

Lemma setupAction_missing_credential_witness :
  setupAction Stub.granting {| Setup.COMPOSIO_API_KEY := Some "  " |}
    "billing" =
    {| outputs :=
         [ started;
           failure "API Key Error"
             "COMPOSIO_API_KEY environment variable is required." ];
       requests := [];
       exit := Some 1 |}.
Proof.
  apply (setupAction_missing_credential Stub.granting
           {| Setup.COMPOSIO_API_KEY := Some "  " |} "billing").
  intros key [= <-]. reflexivity.
Defined.

(** X22.  With a credential and a client, a create call that fails is
    reported either as "API Key Error: Invalid Composio API key" or as
    "Server Error: ..."; the line "Unexpected error: ..." is what the action
    writes for a value thrown by the constructor that is of neither class
    of the repository. *)
Theorem setupAction_error_kinds (sdk : Sdk.t) (env : Setup.Env)
    (key options_name : string) :
  Setup.COMPOSIO_API_KEY env = Some key ->
  Js.trim key <> "" ->
  let config :=
    {| SetupConfig.composioApiKey := key;
       SetupConfig.serverName :=
         if String.eqb options_name "" then "billing-invoice-automation"
         else options_name |} in
  (forall error : Thrown,
     construct sdk (setup_client config) = None ->
     create_outcome sdk config = inl error ->
     outputs (setupAction sdk env options_name) =
       [ started; failure "API Key Error" "Invalid Composio API key" ]
     \/ exists text : string,
          outputs (setupAction sdk env options_name) =
            [ started; failure "Server Error" text ])
  /\ (forall text : string,
        construct sdk (setup_client config) = Some (ForeignError text) ->
        setupAction sdk env options_name =
          {| outputs := [ started; failure "Unexpected error" text ];
             requests := [ NewComposio (setup_client config) ];
             exit := Some 1 |})
  /\ (forall payload : string,
        construct sdk (setup_client config) = Some (NonError payload) ->
        outputs (setupAction sdk env options_name) =
          [ started; failure "Unexpected error" "Unknown error" ]).
Proof.
  intros Henv Htrim. cbv zeta. unfold setupAction.
  rewrite (setupFromEnv_present sdk env key (Some options_name) Henv Htrim).
  split; [|split].
  - intros error Hnew Hcreate.
    destruct (setup_rejected_cases sdk _ error Hnew Hcreate)
      as (thrown & -> & [-> | [text ->]]).
    + by left.
    + right. by exists text.
  - intros text Hnew. by rewrite (setup_construct_throws sdk _ _ Hnew).
  - intros payload Hnew. by rewrite (setup_construct_throws sdk _ _ Hnew).
Qed.

Lemma setupAction_error_kinds_witness :
  (exists text : string,
     outputs
       (setupAction (Stub.failing (ForeignError "quota exceeded"))
          {| Setup.COMPOSIO_API_KEY := Some "k1" |} "billing") =
       [ started; failure "Server Error" text ])
  /\ setupAction (Stub.unconstructible (ForeignError "bad options"))
       {| Setup.COMPOSIO_API_KEY := Some "k1" |} "" =
     {| outputs := [ started; failure "Unexpected error" "bad options" ];
        requests :=
          [ NewComposio {| apiKey := "k1"; disableVersionCheck := true |} ];
        exit := Some 1 |}.
Proof.
  assert (Hk1 : Js.trim "k1" <> "") by (vm_compute; discriminate).
  split.
  - destruct (setupAction_error_kinds
                (Stub.failing (ForeignError "quota exceeded"))
                {| Setup.COMPOSIO_API_KEY := Some "k1" |} "k1" "billing"
                eq_refl Hk1) as [Hcreate _].
    destruct (Hcreate (ForeignError "quota exceeded") eq_refl eq_refl)
      as [Hkey | [text Hserver]]; [vm_compute in Hkey; discriminate|].
    by exists text.
  - destruct (setupAction_error_kinds
                (Stub.unconstructible (ForeignError "bad options"))
                {| Setup.COMPOSIO_API_KEY := Some "k1" |} "k1" ""
                eq_refl Hk1) as (_ & Hnew & _).
    apply (Hnew "bad options"). reflexivity.
Defined.

(** X23.  When the platform grants the request, the action writes eighteen
    lines on the output stream and does not call [process.exit].  Of what
    the platform answered, the lines show the id and the name; the toolkits,
    the count and the eleven tool names are those of the manifest. *)
Theorem setupAction_success_output (sdk : Sdk.t) (env : Setup.Env)
    (key options_name : string) (server : ComposioMCPServer.t) :
  Setup.COMPOSIO_API_KEY env = Some key ->
  Js.trim key <> "" ->
  let config :=
    {| SetupConfig.composioApiKey := key;
       SetupConfig.serverName :=
         if String.eqb options_name "" then "billing-invoice-automation"
         else options_name |} in
  construct sdk (setup_client config) = None ->
  create_outcome sdk config = inr server ->
  setupAction sdk env options_name =
    {| outputs :=
         [ started;
           Log (CHECK_MARK :: units (" MCP server created successfully!" +:+ LF));
           Log (units ("Server ID: " +:+ ComposioMCPServer.id server));
           Log (units ("Server Name: " +:+ ComposioMCPServer.name server));
           Log (units (LF +:+ "Configured Toolkits: " +:+
                       "gmail, googlesheets, googledrive, outlook, xero"));
           Log (units (LF +:+ "Allowed Tools (11):")) ]
         ++ map (fun tool => Log (units ("  - " +:+ tool)))
              Config.BILLING_ALLOWED_TOOLS
         ++ [ Log (units (LF +:+ "Next step: Run " +:+ DQUOTE +:+
                          "billing-mcp generate <userId>" +:+ DQUOTE +:+
                          " to generate a URL for a user.")) ];
       requests :=
         [ NewComposio (setup_client config);
           McpCreate (setup_client config) (setup_name config) setup_options ];
       exit := None |}
  /\ length (outputs (setupAction sdk env options_name)) = 18.
Proof.
  intros Henv Htrim. cbv zeta. intros Hnew Hcreate. unfold setupAction.
  rewrite (setupFromEnv_present sdk env key (Some options_name) Henv Htrim).
  rewrite (setup_created sdk _ server Hnew Hcreate). split; reflexivity.
Qed.

Lemma setupAction_success_output_witness :
  length
    (outputs
       (setupAction Stub.granting {| Setup.COMPOSIO_API_KEY := Some "k1" |}
          "")) = 18.
Proof.
  assert (Hk1 : Js.trim "k1" <> "") by (vm_compute; discriminate).
  apply (setupAction_success_output Stub.granting
           {| Setup.COMPOSIO_API_KEY := Some "k1" |} "k1" ""
           {| ComposioMCPServer.id := "srv-1";
              ComposioMCPServer.name := "billing-invoice-automation";
              ComposioMCPServer.toolkits :=
                [ {| ToolkitConfig.toolkit := "slack";
                     ToolkitConfig.authConfigId := Some "ac_1" |} ];
              ComposioMCPServer.allowedTools := [ "SLACK_SEND_MESSAGE" ];
              ComposioMCPServer.createdAt := "2025-11-01T00:00:00Z" |}
           eq_refl Hk1 eq_refl eq_refl).
Defined.

End SetupCommand.
